(** * Che Ore Sono API: the handler [che_ore_sono] and its timezone lookup

    Shallow embedding of [src/main.py].  The module has two functions of its
    own, [get_rome_tz] and [che_ore_sono]; everything else it does happens in
    the libraries it calls: [zoneinfo.ZoneInfo], [datetime.now],
    [datetime.strftime] and the FastAPI route.  Those library calls are
    embedded from their reference (pure Python) implementation and their
    documentation, so that the properties of the handler can be stated on
    the strings it really returns and on the exceptions that really leave
    it. *)

From Stdlib Require Import ZArith List Bool Ascii String Lia ZifyBool.
Import ListNotations.

Local Open Scope string_scope.
Local Open Scope Z_scope.

(** ** Exceptions and fallible computations *)

(** The exceptions that can travel through the handler.  An exception
    carries the text that [str(exc)] yields.  [ZoneInfoNotFoundError] and
    [HTTPException] are the two the source names; the others are what the
    libraries raise: [ValueError] for a malformed zone file, a date field
    out of range or a DST offset that [datetime] refuses; [OSError] for a
    zone file that cannot be read; [StructError] ([struct.error]) for a zone
    file that ends too early; [OverflowError] for date arithmetic that
    leaves year 1..9999; [OtherError] for an exception of any other class,
    given by its name. *)
Inductive exn : Type :=
| ZoneInfoNotFoundError (text : string)
| HTTPException (status_code : Z) (detail : string)
| ValueError (text : string)
| OSError (text : string)
| StructError (text : string)
| OverflowError (text : string)
| OtherError (class_name : string) (text : string).

Inductive result (A : Type) : Type :=
| Ok (a : A)
| Raise (e : exn).
Arguments Ok {A} a.
Arguments Raise {A} e.

Definition bind {A B : Type} (m : result A) (k : A -> result B) : result B :=
  match m with
  | Ok a => k a
  | Raise e => Raise e
  end.

Notation "x <- m ;; k" := (bind m (fun x => k))
  (at level 61, m at next level, right associativity).

(** ** Bounded integers of the host interfaces *)

(** A zone file stores every UTC offset as a signed 32-bit number of
    seconds. *)
Definition in_int32 (v : Z) : bool := (- 2 ^ 31 <=? v) && (v <? 2 ^ 31).

Record int32 : Type := mk_int32 {
  i32 : Z;
  i32_range : in_int32 i32 = true
}.

(** The system clock is read as [PyTime_t]: signed 64-bit nanoseconds since
    1970-01-01T00:00:00Z. *)
Definition in_int64 (v : Z) : bool := (- 2 ^ 63 <=? v) && (v <? 2 ^ 63).

Record PyTime_t : Type := mk_PyTime {
  ns : Z;
  ns_range : in_int64 ns = true
}.

(** ** Calendar arithmetic of [datetime] *)

Definition MINYEAR : Z := 1.
Definition MAXYEAR : Z := 9999.
Definition MAXORDINAL : Z := 3652059.

(** Month tables, indexed from 1; index 0 is a placeholder. *)
Definition DAYS_IN_MONTH : list Z :=
  [-1; 31; 28; 31; 30; 31; 30; 31; 31; 30; 31; 30; 31].

Definition DAYS_BEFORE_MONTH : list Z :=
  [-1; 0; 31; 59; 90; 120; 151; 181; 212; 243; 273; 304; 334].

Definition tbl (t : list Z) (i : Z) : Z := nth (Z.to_nat i) t 0.

Definition b2z (b : bool) : Z := if b then 1 else 0.

Definition is_leap (year : Z) : bool :=
  (year mod 4 =? 0) && (negb (year mod 100 =? 0) || (year mod 400 =? 0)).

Definition days_before_year (year : Z) : Z :=
  let y := year - 1 in
  y * 365 + y / 4 - y / 100 + y / 400.

Definition days_in_month (year month : Z) : Z :=
  if (month =? 2) && is_leap year then 29 else tbl DAYS_IN_MONTH month.

Definition days_before_month (year month : Z) : Z :=
  tbl DAYS_BEFORE_MONTH month + b2z ((2 <? month) && is_leap year).

Definition ymd2ord (year month day : Z) : Z :=
  days_before_year year + days_before_month year month + day.

Definition DI400Y : Z := 146097.
Definition DI100Y : Z := 36524.
Definition DI4Y : Z := 1461.

(** [_ord2ymd]: ordinal (1 = 0001-01-01) to year, month, day.  Python's
    [divmod] and [>>] round towards minus infinity, as [Z.div], [Z.modulo]
    and [Z.shiftr] do. *)
Definition ord2ymd (n : Z) : Z * Z * Z :=
  let n := n - 1 in
  let n400 := n / DI400Y in
  let n := n mod DI400Y in
  let year := n400 * 400 + 1 in
  let n100 := n / DI100Y in
  let n := n mod DI100Y in
  let n4 := n / DI4Y in
  let n := n mod DI4Y in
  let n1 := n / 365 in
  let n := n mod 365 in
  let year := year + n100 * 100 + n4 * 4 + n1 in
  if (n1 =? 4) || (n100 =? 4) then (year - 1, 12, 31)
  else
    let leapyear := (n1 =? 3) && (negb (n4 =? 24) || (n100 =? 3)) in
    let month := Z.shiftr (n + 50) 5 in
    let preceding := tbl DAYS_BEFORE_MONTH month + b2z ((2 <? month) && leapyear) in
    let '(month, preceding) :=
      if n <? preceding
      then (month - 1,
            preceding - (tbl DAYS_IN_MONTH (month - 1)
                         + b2z ((month - 1 =? 2) && leapyear)))
      else (month, preceding) in
    (year, month, n - preceding + 1).

(** ** Zone rules *)

(** A local time type of a zone: its UTC offset, a signed 32-bit number of
    seconds in the zone file, and its DST offset in seconds.  The file has
    no DST offset; the loader infers one for each type flagged [isdst], as
    the difference between the offset of that type and the offset of a
    neighbouring standard type (or 3600 when it finds none), and nothing
    bounds that difference. *)
Record ttinfo : Type := mk_ttinfo {
  tt_utcoff : int32;
  tt_dstoff : Z
}.

(** A resolved [ZoneInfo], as the two lookups made on it.
    [fromutc_lookup t] is what [fromutc] finds for the UTC timestamp [t]:
    the local time type in force and whether the local time is the second
    reading of a repeated one.  [find_trans ts fold] is what [_find_trans]
    finds for a datetime of local timestamp [ts] and the given [fold].  Both
    go through the transition tables of the file and the rule after the last
    transition; nothing ties the two lookups together for an arbitrary
    file. *)
Record ZoneInfo : Type := mk_ZoneInfo {
  key : string;
  fromutc_lookup : Z -> ttinfo * bool;
  find_trans : Z -> Z -> ttinfo
}.

(** The UTC offset in force at the UTC timestamp [t]. *)
Definition utcoff (tz : ZoneInfo) (t : Z) : int32 :=
  tt_utcoff (fst (fromutc_lookup tz t)).

(** ** [datetime] values *)

Record datetime : Type := mk_datetime {
  year : Z;
  month : Z;
  day : Z;
  hour : Z;
  minute : Z;
  second : Z;
  microsecond : Z;
  tzinfo : option ZoneInfo;
  fold : Z
}.

(** The constructor checks every field ([_check_date_fields],
    [_check_time_fields]). *)
Definition datetime_new (y m d hh mm ss us : Z) (tz : option ZoneInfo)
    (fd : Z) : result datetime :=
  if negb ((MINYEAR <=? y) && (y <=? MAXYEAR)) then
    Raise (ValueError "year must be in 1..9999")
  else if negb ((1 <=? m) && (m <=? 12)) then
    Raise (ValueError "month must be in 1..12")
  else if negb ((1 <=? d) && (d <=? days_in_month y m)) then
    Raise (ValueError "day is out of range for month")
  else if negb ((0 <=? hh) && (hh <=? 23)) then
    Raise (ValueError "hour must be in 0..23")
  else if negb ((0 <=? mm) && (mm <=? 59)) then
    Raise (ValueError "minute must be in 0..59")
  else if negb ((0 <=? ss) && (ss <=? 59)) then
    Raise (ValueError "second must be in 0..59")
  else if negb ((0 <=? us) && (us <=? 999999)) then
    Raise (ValueError "microsecond must be in 0..999999")
  else if negb ((fd =? 0) || (fd =? 1)) then
    Raise (ValueError "fold must be either 0 or 1")
  else Ok (mk_datetime y m d hh mm ss us tz fd).

Definition toordinal (dt : datetime) : Z :=
  ymd2ord (year dt) (month dt) (day dt).

(** [datetime + timedelta(seconds=off)]: the sum is normalised to days and
    seconds of the day and rebuilt from the ordinal, with the [tzinfo] of
    [dt] and [fold] 0. *)
Definition datetime_add_seconds (dt : datetime) (off : Z) : result datetime :=
  let days := toordinal dt in
  let secs := hour dt * 3600 + minute dt * 60 + second dt + off in
  let days := days + secs / 86400 in
  let secs := secs mod 86400 in
  let hh := secs / 3600 in
  let rem := secs mod 3600 in
  let mm := rem / 60 in
  let ss := rem mod 60 in
  if (0 <? days) && (days <=? MAXORDINAL) then
    let '(y, m, d) := ord2ymd days in
    datetime_new y m d hh mm ss (microsecond dt) (tzinfo dt) 0
  else Raise (OverflowError "result out of range").

(** [time.gmtime]: seconds since the epoch to broken-down UTC time. *)
Definition EPOCHORDINAL : Z := 719163.

Definition gmtime (t : Z) : Z * Z * Z * Z * Z * Z :=
  let days := t / 86400 in
  let rem := t mod 86400 in
  let '(y, m, d) := ord2ymd (days + EPOCHORDINAL) in
  (y, m, d, rem / 3600, (rem mod 3600) / 60, rem mod 60).

(** ** Conversion to local time *)

Definition get_local_timestamp (dt : datetime) : Z :=
  (toordinal dt - EPOCHORDINAL) * 86400
  + hour dt * 3600 + minute dt * 60 + second dt.

(** [dt.replace(fold=fd)] *)
Definition replace_fold (dt : datetime) (fd : Z) : result datetime :=
  datetime_new (year dt) (month dt) (day dt) (hour dt) (minute dt) (second dt)
    (microsecond dt) (tzinfo dt) fd.

(** [ZoneInfo.fromutc]: the local time type is looked up at the instant of
    [dt], its offset added, and the fold recorded.  [datetime.now] calls it
    on the datetime it has just built with this very zone, so the check that
    [dt.tzinfo] is the zone itself passes. *)
Definition fromutc (tz : ZoneInfo) (dt : datetime) : result datetime :=
  let timestamp := get_local_timestamp dt in
  let '(tti, fd) := fromutc_lookup tz timestamp in
  local <- datetime_add_seconds dt (i32 (tt_utcoff tti)) ;;
  if fd then replace_fold local 1 else Ok local.

(** ** The host: zone database and clock *)

(** What the host answers when a key is looked up: the zone; no file for
    the key on the search path nor in the [tzdata] package; a file that is
    not a valid TZif file; a file that cannot be opened; a file that ends
    before its tables do; any other failure of the loader (an [IndexError]
    on a table that points outside another, say). *)
Inductive tz_lookup : Type :=
| Found (tz : ZoneInfo)
| NotFound (text : string)
| Corrupt (text : string)
| Unreadable (text : string)
| Truncated (text : string)
| Failed (class_name : string) (text : string).

(** The host: its zone database, its clock, and whether the [strftime] of
    its C library pads [%Y] with zeros to four digits (glibc does not). *)
Record Host : Type := mk_Host {
  tzdb : string -> tz_lookup;
  clock : PyTime_t;
  pads_year : bool
}.

(** The constructor [ZoneInfo(key)]. *)
Definition ZoneInfo_new (h : Host) (k : string) : result ZoneInfo :=
  match tzdb h k with
  | Found tz => Ok tz
  | NotFound text => Raise (ZoneInfoNotFoundError text)
  | Corrupt text => Raise (ValueError text)
  | Unreadable text => Raise (OSError text)
  | Truncated text => Raise (StructError text)
  | Failed class_name text => Raise (OtherError class_name text)
  end.

(** [datetime.now(tz)]: the clock is split, rounding down, into seconds and
    microseconds; the UTC fields are built and handed to [tz.fromutc]. *)
Definition clock_seconds (h : Host) : Z := ns (clock h) / 1000000000.
Definition clock_micros (h : Host) : Z := (ns (clock h) mod 1000000000) / 1000.

Definition datetime_now (h : Host) (tz : ZoneInfo) : result datetime :=
  let '(y, m, d, hh, mm, ss) := gmtime (clock_seconds h) in
  utc <- datetime_new y m d hh mm (Z.min ss 59) (clock_micros h) (Some tz) 0 ;;
  fromutc tz utc.

(** ** Formatting *)

Definition digit_char (d : Z) : ascii := ascii_of_N (Z.to_N (48 + d)).

Fixpoint decimal_fuel (fuel : nat) (n : Z) (acc : string) : string :=
  match fuel with
  | O => acc
  | S f =>
      let acc' := String (digit_char (n mod 10)) acc in
      if n <? 10 then acc' else decimal_fuel f (n / 10) acc'
  end.

(** [str(n)] for an integer. *)
Definition str_int (n : Z) : string :=
  if n <? 0
  then String "-" (decimal_fuel (S (Z.to_nat (Z.log2 (- n)))) (- n) "")
  else decimal_fuel (S (Z.to_nat (Z.log2 n))) n "".

Fixpoint zeros (k : nat) : string :=
  match k with
  | O => ""
  | S k' => String "0" (zeros k')
  end.

(** [%0wd]: at least [w] characters, padded with zeros on the left. *)
Definition zfill (w : nat) (n : Z) : string :=
  let s := str_int n in
  zeros (w - String.length s) ++ s.

(** The time tuple that [time.strftime] formats. *)
Record struct_time : Type := mk_struct_time {
  tm_year : Z;
  tm_mon : Z;
  tm_mday : Z;
  tm_hour : Z;
  tm_min : Z;
  tm_sec : Z;
  tm_wday : Z;
  tm_yday : Z;
  tm_isdst : Z
}.

Definition build_struct_time (y m d hh mm ss dstflag : Z) : struct_time :=
  let wday := (ymd2ord y m d + 6) mod 7 in
  let dnum := days_before_month y m + d in
  mk_struct_time y m d hh mm ss wday dnum dstflag.

(** A DST offset must lie strictly between minus and plus 24 hours. *)
Definition dst_in_range (offset : Z) : bool :=
  (-86400 <? offset) && (offset <? 86400).

Definition DST_RANGE_ERROR : exn :=
  ValueError "offset must be a timedelta strictly between -timedelta(hours=24) and timedelta(hours=24).".

(** [datetime.dst()]: [None] without a zone, else what the zone gives for
    this local time and fold, checked for its range. *)
Definition dst (dt : datetime) : result (option Z) :=
  match tzinfo dt with
  | None => Ok None
  | Some tz =>
      let offset := tt_dstoff (find_trans tz (get_local_timestamp dt) (fold dt)) in
      if dst_in_range offset then Ok (Some offset) else Raise DST_RANGE_ERROR
  end.

(** [datetime.timetuple()]: it asks for the DST offset first. *)
Definition timetuple (dt : datetime) : result struct_time :=
  d <- dst dt ;;
  let dstflag :=
    match d with
    | None => -1
    | Some offset => if offset =? 0 then 0 else 1
    end in
  Ok (build_struct_time (year dt) (month dt) (day dt)
        (hour dt) (minute dt) (second dt) dstflag).

(** One directive of [time.strftime].  [%Y] is the year in decimal, which
    the C library of the host pads to four digits or not. *)
Definition directive (pad : bool) (t : struct_time) (c : ascii) : string :=
  if Ascii.eqb c "Y" then (if pad then zfill 4 (tm_year t) else str_int (tm_year t))
  else if Ascii.eqb c "m" then zfill 2 (tm_mon t)
  else if Ascii.eqb c "d" then zfill 2 (tm_mday t)
  else if Ascii.eqb c "H" then zfill 2 (tm_hour t)
  else if Ascii.eqb c "M" then zfill 2 (tm_min t)
  else if Ascii.eqb c "S" then zfill 2 (tm_sec t)
  else if Ascii.eqb c "%" then "%"
  else String "%" (String c "").

(** [time.strftime] for the directives above; any other character of the
    format is copied. *)
Fixpoint time_strftime (pad : bool) (fmt : string) (t : struct_time) : string :=
  match fmt with
  | "" => ""
  | String c rest =>
      if Ascii.eqb c "%" then
        match rest with
        | "" => "%"
        | String c' rest' => directive pad t c' ++ time_strftime pad rest' t
        end
      else String c (time_strftime pad rest t)
  end.

(** [datetime.strftime]: the time tuple is built first, then formatted.
    The directives [%f], [%z] and [%Z], which are replaced before the
    format reaches [time.strftime], do not occur in the handler's format. *)
Definition strftime (pad : bool) (dt : datetime) (fmt : string) : result string :=
  t <- timetuple dt ;;
  Ok (time_strftime pad fmt t).

(** ** The source: [src/main.py] *)

Definition TZ_NAME : string := "Europe/Rome".

(** The [detail] of the HTTP error, as the f-string builds it from
    [TZ_NAME] and [str(exc)]. *)
Definition tz_error_detail (exc : string) : string :=
  ("Timezone data for '" ++ TZ_NAME ++ "' not found: " ++ exc ++ ". "
   ++ "Install the 'tzdata' package (e.g. `pip install tzdata`) or "
   ++ "ensure the OS provides the IANA time‑zone database.")%string.

(** [get_rome_tz]: only [ZoneInfoNotFoundError] is caught; any other
    exception of the constructor leaves the [try] unchanged. *)
Definition get_rome_tz (h : Host) : result ZoneInfo :=
  match ZoneInfo_new h TZ_NAME with
  | Ok tz => Ok tz
  | Raise (ZoneInfoNotFoundError exc) =>
      Raise (HTTPException 500 (tz_error_detail exc))
  | Raise e => Raise e
  end.

(** [che_ore_sono]: the route handler. *)
Definition che_ore_sono (h : Host) : result string :=
  tz <- get_rome_tz h ;;
  now <- datetime_now h tz ;;
  strftime (pads_year h) now "%Y-%m-%d %H:%M:%S".

(** ** The route, as the framework serves it *)

Record Response : Type := mk_Response {
  status : Z;
  content_type : string;
  body : string
}.

Definition dquote : ascii := ascii_of_N 34.
Definition backslash : ascii := ascii_of_N 92.

Definition hex_char (d : N) : ascii :=
  if (d <? 10)%N then ascii_of_N (48 + d) else ascii_of_N (87 + d).

(** JSON string escaping as [json.dumps(..., ensure_ascii=False)] does it:
    the quote, the backslash and the control characters. *)
Definition json_escape_char (c : ascii) : string :=
  let n := N_of_ascii c in
  if Ascii.eqb c dquote then String backslash (String dquote "")
  else if Ascii.eqb c backslash then String backslash (String backslash "")
  else if (n =? 8)%N then String backslash "b"
  else if (n =? 9)%N then String backslash "t"
  else if (n =? 10)%N then String backslash "n"
  else if (n =? 12)%N then String backslash "f"
  else if (n =? 13)%N then String backslash "r"
  else if (n <? 32)%N then
    String backslash
      (String "u" (String "0" (String "0"
        (String (hex_char (n / 16)) (String (hex_char (n mod 16)) "")))))
  else String c "".

Fixpoint json_escape (s : string) : string :=
  match s with
  | "" => ""
  | String c rest => (json_escape_char c ++ json_escape rest)%string
  end.

(** The body of [JSONResponse({"detail": detail})], compact separators. *)
Definition json_detail (detail : string) : string :=
  (String "{" (String dquote "detail") ++ String dquote ":"
   ++ String dquote (json_escape detail) ++ String dquote "}")%string.

(** [GET /che_ore_sono]: the handler's string goes out as a
    [PlainTextResponse]; an [HTTPException] becomes a JSON response with the
    status code the exception carries; any other exception reaches the
    server error middleware, which answers 500 with a fixed text. *)
Definition get_che_ore_sono (h : Host) : Response :=
  match che_ore_sono h with
  | Ok s => mk_Response 200 "text/plain; charset=utf-8" s
  | Raise (HTTPException code detail) =>
      mk_Response code "application/json" (json_detail detail)
  | Raise _ => mk_Response 500 "text/plain; charset=utf-8" "Internal Server Error"
  end.

(** ** Vocabulary of the specification *)

Definition is_digit (c : ascii) : bool :=
  let n := N_of_ascii c in ((48 <=? n) && (n <=? 57))%N.

(** One position of a fixed-shape pattern: [\d] or a literal character. *)
Inductive shape_item : Type :=
| D
| L (c : ascii).

Fixpoint matches_shape (p : list shape_item) (s : string) : bool :=
  match p, s with
  | [], "" => true
  | D :: p', String c s' => is_digit c && matches_shape p' s'
  | L a :: p', String c s' => Ascii.eqb a c && matches_shape p' s'
  | _, _ => false
  end.

(** [^\d{4}-\d{2}-\d{2} \d{2}:\d{2}:\d{2}$], read strictly: nineteen
    characters, the digits ASCII. *)
Definition formatted_time_shape : list shape_item :=
  [D; D; D; D; L "-"; D; D; L "-"; D; D; L " "; D; D; L ":"; D; D; L ":"; D; D].

Definition is_formatted_time (s : string) : bool :=
  matches_shape formatted_time_shape s.

(** Reading a decimal field back from the string. *)
Fixpoint int_of_digits (acc : Z) (s : string) : option Z :=
  match s with
  | "" => Some acc
  | String c s' =>
      if is_digit c
      then int_of_digits (acc * 10 + (Z.of_N (N_of_ascii c) - 48)) s'
      else None
  end.

Definition field (s : string) (start len : nat) : option Z :=
  int_of_digits 0 (substring start len s).

(** The six numeric components of a formatted time, by position. *)
Definition components (s : string) : option (Z * Z * Z * Z * Z * Z) :=
  match field s 0 4, field s 5 2, field s 8 2,
        field s 11 2, field s 14 2, field s 17 2 with
  | Some y, Some mo, Some d, Some hh, Some mi, Some ss =>
      Some (y, mo, d, hh, mi, ss)
  | _, _, _, _, _, _ => None
  end.

(** A valid wall-clock reading: month, day of that month and year, hour,
    minute, second. *)
Definition valid_components (c : Z * Z * Z * Z * Z * Z) : Prop :=
  let '(y, mo, d, hh, mi, ss) := c in
  1 <= mo <= 12 /\ 1 <= d <= days_in_month y mo /\
  0 <= hh <= 23 /\ 0 <= mi <= 59 /\ 0 <= ss <= 59.

(** The wall clock that reads [l] seconds after 1970-01-01 00:00:00, and
    its rendering with a four-digit year; used to state what the handler
    prints. *)
Definition wall_clock (l us : Z) (tz : option ZoneInfo) (fd : Z) : datetime :=
  let '(y, m, d) := ord2ymd (l / 86400 + EPOCHORDINAL) in
  let r := l mod 86400 in
  mk_datetime y m d (r / 3600) ((r mod 3600) / 60) (r mod 60) us tz fd.

Definition tuple_of (dt : datetime) (dstflag : Z) : struct_time :=
  build_struct_time (year dt) (month dt) (day dt)
    (hour dt) (minute dt) (second dt) dstflag.

Definition render (l : Z) : string :=
  time_strftime true "%Y-%m-%d %H:%M:%S" (tuple_of (wall_clock l 0 None 0) (-1)).

(** The local wall-clock seconds of a host whose zone resolved to [tz]. *)
Definition local_seconds (h : Host) (tz : ZoneInfo) : Z :=
  clock_seconds h + i32 (utcoff tz (clock_seconds h)).

(** The fold of the local time of the call, and the DST offset that the
    zone gives for it when the handler formats. *)
Definition fold_now (h : Host) (tz : ZoneInfo) : Z :=
  if snd (fromutc_lookup tz (clock_seconds h)) then 1 else 0.

Definition dst_now (h : Host) (tz : ZoneInfo) : Z :=
  tt_dstoff (find_trans tz (local_seconds h tz) (fold_now h tz)).

(** Seconds since local midnight that a formatted time shows. *)
Definition time_of_day (s : string) : option Z :=
  match components s with
  | Some (_, _, _, hh, mi, ss) => Some (hh * 3600 + mi * 60 + ss)
  | None => None
  end.

(** [needle in s] *)
Fixpoint contains (needle s : string) : bool :=
  prefix needle s ||
  match s with
  | "" => false
  | String _ s' => contains needle s'
  end.

(** ** Example hosts *)

Definition off_3600 : int32 := mk_int32 3600 eq_refl.
Definition off_7200 : int32 := mk_int32 7200 eq_refl.

Definition CET : ttinfo := mk_ttinfo off_3600 0.
Definition CEST : ttinfo := mk_ttinfo off_7200 3600.

(** Europe/Rome in 2024: CET (+1h) until 2024-03-31T01:00:00Z, CEST (+2h,
    one hour of DST) until 2024-10-27T01:00:00Z, CET after; the hour after
    the autumn transition is the second reading of 02:00 to 03:00.  In local
    time a transition lies at its UTC instant plus the larger of the two
    offsets for fold 0, plus the smaller for fold 1. *)
Definition europe_rome_2024 : ZoneInfo :=
  mk_ZoneInfo "Europe/Rome"
    (fun t => if t <? 1711846800 then (CET, false)
              else if t <? 1729990800 then (CEST, false)
              else (CET, t - 1729990800 <? 3600))
    (fun ts fd => let w := if fd =? 0 then 7200 else 3600 in
                  if ts <? 1711846800 + w then CET
                  else if ts <? 1729990800 + w then CEST else CET).

Definition tzdata_present (k : string) : tz_lookup :=
  if String.eqb k "Europe/Rome" then Found europe_rome_2024
  else NotFound ("'No time zone found with key " ++ k ++ "'")%string.

Definition tzdata_missing (k : string) : tz_lookup :=
  NotFound ("'No time zone found with key " ++ k ++ "'")%string.

Definition tzdata_unreadable (k : string) : tz_lookup :=
  Unreadable "[Errno 13] Permission denied".

(** A well-formed zone file with two types, standard time at -12h and a
    type flagged DST at +13h, in force since 1971-01-01T00:00:00Z; the
    loader infers a DST offset of 25 hours for the second. *)
Definition off_minus_12h : int32 := mk_int32 (-43200) eq_refl.
Definition off_13h : int32 := mk_int32 46800 eq_refl.
Definition STD_MINUS_12 : ttinfo := mk_ttinfo off_minus_12h 0.
Definition DST_PLUS_13 : ttinfo := mk_ttinfo off_13h 90000.

Definition zone_dst_25h : ZoneInfo :=
  mk_ZoneInfo "Europe/Rome"
    (fun t => if t <? 31536000 then (STD_MINUS_12, false) else (DST_PLUS_13, false))
    (fun ts fd => let w := if fd =? 0 then 46800 else -43200 in
                  if ts <? 31536000 + w then STD_MINUS_12 else DST_PLUS_13).

Definition tzdata_dst_25h (k : string) : tz_lookup := Found zone_dst_25h.

(** 2024-03-15T13:05:09.5Z, and a later instant of the same second. *)
Definition clock_2024_03_15 : PyTime_t := mk_PyTime 1710507909500000000 eq_refl.
Definition clock_2024_03_15_later : PyTime_t :=
  mk_PyTime 1710507909999999999 eq_refl.
(** 2024-02-29T22:30:00Z *)
Definition clock_leap_day : PyTime_t := mk_PyTime 1709245800000000000 eq_refl.
(** 2024-03-31T00:59:59Z and the next second, the spring transition. *)
Definition clock_spring_before : PyTime_t := mk_PyTime 1711846799000000000 eq_refl.
Definition clock_spring_at : PyTime_t := mk_PyTime 1711846800000000000 eq_refl.
(** 2024-10-27T00:59:59Z and the next second, the autumn transition. *)
Definition clock_autumn_before : PyTime_t := mk_PyTime 1729990799000000000 eq_refl.
Definition clock_autumn_at : PyTime_t := mk_PyTime 1729990800000000000 eq_refl.

Definition host_2024_03_15 : Host := mk_Host tzdata_present clock_2024_03_15 false.
Definition host_2024_03_15_later : Host :=
  mk_Host tzdata_present clock_2024_03_15_later true.
Definition host_leap_day : Host := mk_Host tzdata_present clock_leap_day false.
Definition host_spring_before : Host := mk_Host tzdata_present clock_spring_before false.
Definition host_spring_at : Host := mk_Host tzdata_present clock_spring_at false.
Definition host_autumn_before : Host := mk_Host tzdata_present clock_autumn_before false.
Definition host_autumn_at : Host := mk_Host tzdata_present clock_autumn_at false.
Definition host_missing : Host := mk_Host tzdata_missing clock_2024_03_15 false.
Definition host_unreadable : Host := mk_Host tzdata_unreadable clock_2024_03_15 false.
Definition host_dst_25h : Host := mk_Host tzdata_dst_25h clock_2024_03_15 false.

(** ** Further vocabulary and hosts *)

(** The local seconds since 1970-01-01 00:00:00 that a formatted time
    denotes, through [ymd2ord]. *)
Definition decode (s : string) : option Z :=
  match components s with
  | Some (y, mo, d, hh, mi, ss) =>
      Some ((ymd2ord y mo d - EPOCHORDINAL) * 86400 + hh * 3600 + mi * 60 + ss)
  | None => None
  end.

(** A zone with offset zero throughout. *)
Definition off_0 : int32 := mk_int32 0 eq_refl.
Definition UTC0 : ttinfo := mk_ttinfo off_0 0.
Definition utc_zone : ZoneInfo :=
  mk_ZoneInfo "Europe/Rome" (fun _ => (UTC0, false)) (fun _ _ => UTC0).
Definition tzdata_utc (k : string) : tz_lookup := Found utc_zone.

(** 2024-10-27T00:30:00Z and one hour later, either side of the autumn
    transition. *)
Definition clock_autumn_0030 : PyTime_t := mk_PyTime 1729989000000000000 eq_refl.
Definition clock_autumn_0130 : PyTime_t := mk_PyTime 1729992600000000000 eq_refl.
Definition host_autumn_0030 : Host := mk_Host tzdata_present clock_autumn_0030 false.
Definition host_autumn_0130 : Host := mk_Host tzdata_present clock_autumn_0130 false.

(** 2024-03-15T14:05:09Z, one hour after [clock_2024_03_15], on a host
    whose database maps the key to the zero-offset zone. *)
Definition clock_2024_03_15_plus_1h : PyTime_t :=
  mk_PyTime 1710511509000000000 eq_refl.
Definition host_utc_plus_1h : Host := mk_Host tzdata_utc clock_2024_03_15_plus_1h false.

(** ** Definitions that support the proofs *)

(** Bounded universal check, run inside the proofs by computation. *)
Fixpoint forall_range (f : Z -> bool) (start : Z) (count : nat) : bool :=
  match count with
  | O => true
  | S c => f start && forall_range f (start + 1) c
  end.

(** The month and day of the year of [ord2ymd], for the [n]-th day
    (from 0) of a year that is a leap year or not. *)
Definition month_of_yday (leapyear : bool) (n : Z) : Z * Z :=
  let month := Z.shiftr (n + 50) 5 in
  let preceding := tbl DAYS_BEFORE_MONTH month + b2z ((2 <? month) && leapyear) in
  let '(month, preceding) :=
    if n <? preceding
    then (month - 1,
          preceding - (tbl DAYS_IN_MONTH (month - 1)
                       + b2z ((month - 1 =? 2) && leapyear)))
    else (month, preceding) in
  (month, n - preceding + 1).

Definition dim (leapyear : bool) (m : Z) : Z :=
  if (m =? 2) && leapyear then 29 else tbl DAYS_IN_MONTH m.

Definition dbm (leapyear : bool) (m : Z) : Z :=
  tbl DAYS_BEFORE_MONTH m + b2z ((2 <? m) && leapyear).

Definition yday_check (n : Z) : bool :=
  forallb (fun b =>
    let '(m, d) := month_of_yday b n in
    (1 <=? m) && (m <=? 12) && (1 <=? d) && (d <=? dim b m)
    && (dbm b m + d =? n + 1)) [true; false].

(** Two and four decimal digits, most significant first. *)
Definition digits2 (n : Z) : string :=
  String (digit_char (n / 10 mod 10)) (String (digit_char (n mod 10)) "").

Definition digits4 (n : Z) : string :=
  (digits2 (n / 100) ++ digits2 (n mod 100))%string.

Definition zfill_check2 (n : Z) : bool := String.eqb (zfill 2 n) (digits2 n).
Definition zfill_check4 (n : Z) : bool := String.eqb (zfill 4 n) (digits4 n).
Definition str_int_check4 (n : Z) : bool := String.eqb (str_int n) (zfill 4 n).

(** Calendar order on the six formatted fields. *)
Definition lex (c : comparison) (k : comparison) : comparison :=
  match c with
  | Eq => k
  | _ => c
  end.

Definition datetime_compare (a b : datetime) : comparison :=
  lex (year a ?= year b)
   (lex (month a ?= month b)
     (lex (day a ?= day b)
       (lex (hour a ?= hour b)
         (lex (minute a ?= minute b) (second a ?= second b))))).

(** The field ranges a constructed [datetime] satisfies. *)
Definition datetime_ok (dt : datetime) : Prop :=
  1 <= year dt <= 9999 /\ 1 <= month dt <= 12 /\
  1 <= day dt <= days_in_month (year dt) (month dt) /\
  0 <= hour dt <= 23 /\ 0 <= minute dt <= 59 /\ 0 <= second dt <= 59.

(** ** Tactics *)

(** Linear arithmetic with division and remainder by constants. *)
Ltac divlia := Z.to_euclidean_division_equations; lia.

(** Evaluation of the month tables at a concrete month. *)
Ltac calc_tbl :=
  cbv [dim dbm tbl DAYS_IN_MONTH DAYS_BEFORE_MONTH b2z nth Z.to_nat Pos.to_nat
       Pos.iter_op Nat.add Z.eqb Z.ltb Z.compare Pos.compare Pos.compare_cont
       Pos.eqb andb] in *.

(** Case analysis on a month known to lie in 1..12. *)
Ltac each_month H :=
  match type of H with
  | 1 <= ?m <= 12 =>
      let C := fresh "C" in
      assert (C : m = 1 \/ m = 2 \/ m = 3 \/ m = 4 \/ m = 5 \/ m = 6 \/
                  m = 7 \/ m = 8 \/ m = 9 \/ m = 10 \/ m = 11 \/ m = 12)
        by lia;
      clear H; rename C into H;
      repeat (destruct H as [H | H]); subst
  end.

(** ** The calendar *)


Lemma forall_range_spec (f : Z -> bool) (count : nat) :
  forall start, forall_range f start count = true ->
  forall i, start <= i < start + Z.of_nat count -> f i = true.
Proof.
  induction count as [|c IH]; intros start Hall i Hi.
  - simpl in Hi. lia.
  - simpl in Hall. apply andb_true_iff in Hall. destruct Hall as [H0 Hrest].
    destruct (Z.eq_dec i start) as [->|Hne]; [exact H0|].
    apply (IH (start + 1) Hrest). lia.
Qed.

Lemma yday_checked : forall_range yday_check 0 365 = true.
Proof. vm_compute. reflexivity. Qed.

Lemma month_of_yday_spec (b : bool) (r : Z) :
  0 <= r < 365 ->
  let '(m, d) := month_of_yday b r in
  1 <= m <= 12 /\ 1 <= d <= dim b m /\ dbm b m + d = r + 1.
Proof.
  intros Hr.
  assert (Hc : yday_check r = true).
  { apply (forall_range_spec yday_check 365 0 yday_checked). simpl. lia. }
  unfold yday_check in Hc. simpl in Hc.
  rewrite !andb_true_r in Hc. apply andb_true_iff in Hc. destruct Hc as [Ht Hf].
  destruct b.
  - destruct (month_of_yday true r) as [m d]. lia.
  - destruct (month_of_yday false r) as [m d]. lia.
Qed.

Lemma ord2ymd_cases (n : Z) :
  exists y,
    (ord2ymd n = (y, 12, 31) /\ is_leap y = true
     /\ days_before_year y + 366 = n) \/
    (exists r, 0 <= r < 365 /\ days_before_year y + r + 1 = n /\
       ord2ymd n = (let '(m, d) := month_of_yday (is_leap y) r in (y, m, d))).
Proof.
  unfold ord2ymd, DI400Y, DI100Y, DI4Y. cbv zeta.
  pose proof (Z.div_mod (n - 1) 146097 ltac:(lia)) as E1.
  pose proof (Z.mod_pos_bound (n - 1) 146097 ltac:(lia)) as B1.
  set (n400 := (n - 1) / 146097) in *. set (r1 := (n - 1) mod 146097) in *.
  pose proof (Z.div_mod r1 36524 ltac:(lia)) as E2.
  pose proof (Z.mod_pos_bound r1 36524 ltac:(lia)) as B2.
  set (n100 := r1 / 36524) in *. set (r2 := r1 mod 36524) in *.
  pose proof (Z.div_mod r2 1461 ltac:(lia)) as E3.
  pose proof (Z.mod_pos_bound r2 1461 ltac:(lia)) as B3.
  set (n4 := r2 / 1461) in *. set (r3 := r2 mod 1461) in *.
  pose proof (Z.div_mod r3 365 ltac:(lia)) as E4.
  pose proof (Z.mod_pos_bound r3 365 ltac:(lia)) as B4.
  set (n1 := r3 / 365) in *. set (r4 := r3 mod 365) in *.
  clearbody n400 r1 n100 r2 n4 r3 n1 r4.
  destruct ((n1 =? 4) || (n100 =? 4)) eqn:Elast.
  - exists (n400 * 400 + 1 + n100 * 100 + n4 * 4 + n1 - 1). left.
    split; [reflexivity|].
    unfold is_leap, days_before_year. split.
    + divlia.
    + divlia.
  - exists (n400 * 400 + 1 + n100 * 100 + n4 * 4 + n1). right.
    exists r4. split; [lia|]. split.
    + unfold days_before_year. divlia.
    + assert (Hleap : is_leap (n400 * 400 + 1 + n100 * 100 + n4 * 4 + n1)
                      = (n1 =? 3) && (negb (n4 =? 24) || (n100 =? 3))).
      { unfold is_leap. divlia. }
      rewrite Hleap. unfold month_of_yday. cbv zeta.
      destruct (r4 <? _); reflexivity.
Qed.

Lemma days_in_month_dim (y m : Z) : days_in_month y m = dim (is_leap y) m.
Proof. reflexivity. Qed.

Lemma days_before_month_dbm (y m : Z) :
  days_before_month y m = dbm (is_leap y) m.
Proof. reflexivity. Qed.

(** [ord2ymd] yields a valid date, and [ymd2ord] maps it back. *)
Lemma ord2ymd_spec (n : Z) :
  let '(y, m, d) := ord2ymd n in
  1 <= m <= 12 /\ 1 <= d <= days_in_month y m /\ ymd2ord y m d = n.
Proof.
  destruct (ord2ymd_cases n) as [y [[E [Hl Hn]] | [r [Hr [Hn E]]]]]; rewrite E.
  - unfold ymd2ord. rewrite days_in_month_dim, days_before_month_dbm, Hl.
    calc_tbl. lia.
  - pose proof (month_of_yday_spec (is_leap y) r Hr) as Hm.
    destruct (month_of_yday (is_leap y) r) as [m d].
    unfold ymd2ord. rewrite days_in_month_dim, days_before_month_dbm. lia.
Qed.

Lemma ord2ymd_year_range (n : Z) :
  1 <= n <= MAXORDINAL ->
  let '(y, _, _) := ord2ymd n in 1 <= y <= 9999.
Proof.
  unfold MAXORDINAL. intros Hn.
  destruct (ord2ymd_cases n) as [y [[E [Hl Hd]] | [r [Hr [Hd E]]]]]; rewrite E.
  - unfold days_before_year in Hd. divlia.
  - destruct (month_of_yday (is_leap y) r) as [m d].
    unfold days_before_year in Hd. divlia.
Qed.

Lemma yday_bounds (b : bool) (m d : Z) :
  1 <= m <= 12 -> 1 <= d <= dim b m -> 1 <= dbm b m + d <= 365 + b2z b.
Proof.
  intros Hm Hd. each_month Hm; destruct b; calc_tbl; lia.
Qed.

Lemma dbm_next (b : bool) (m1 m2 : Z) :
  1 <= m1 <= 12 -> 1 <= m2 <= 12 -> m1 < m2 ->
  dbm b m1 + dim b m1 <= dbm b m2.
Proof.
  intros H1 H2 Hlt.
  each_month H1; each_month H2; try lia; destruct b; calc_tbl; lia.
Qed.

Lemma days_before_year_next (y : Z) :
  days_before_year (y + 1) = days_before_year y + 365 + b2z (is_leap y).
Proof.
  unfold days_before_year, is_leap, b2z.
  destruct ((y mod 4 =? 0) && (negb (y mod 100 =? 0) || (y mod 400 =? 0))) eqn:E;
    divlia.
Qed.

Lemma days_before_year_mono (y1 y2 : Z) :
  y1 <= y2 -> days_before_year y1 <= days_before_year y2.
Proof. unfold days_before_year. intros H. divlia. Qed.

(** [ymd2ord] respects calendar order on valid dates. *)
Lemma ymd2ord_mono (y1 m1 d1 y2 m2 d2 : Z) :
  1 <= m1 <= 12 -> 1 <= d1 <= days_in_month y1 m1 ->
  1 <= m2 <= 12 -> 1 <= d2 <= days_in_month y2 m2 ->
  lex (y1 ?= y2) (lex (m1 ?= m2) (d1 ?= d2)) = Lt ->
  ymd2ord y1 m1 d1 < ymd2ord y2 m2 d2.
Proof.
  intros Hm1 Hd1 Hm2 Hd2 Hlex. unfold ymd2ord.
  rewrite days_in_month_dim in Hd1, Hd2. rewrite !days_before_month_dbm.
  destruct (Z.compare_spec y1 y2) as [Ey | Hy | Hy]; cbn [lex] in Hlex;
    try discriminate.
  - subst y2.
    destruct (Z.compare_spec m1 m2) as [Em | Hm | Hm]; cbn [lex] in Hlex;
      try discriminate.
    + subst m2. change (d1 < d2) in Hlex. lia.
    + pose proof (dbm_next (is_leap y1) m1 m2 Hm1 Hm2 Hm). lia.
  - pose proof (yday_bounds _ _ _ Hm1 Hd1).
    pose proof (yday_bounds _ _ _ Hm2 Hd2).
    pose proof (days_before_year_next y1).
    pose proof (days_before_year_mono (y1 + 1) y2 ltac:(lia)). lia.
Qed.

(** Later ordinals are later dates. *)
Lemma ord2ymd_mono (n1 n2 : Z) :
  n1 < n2 ->
  let '(y1, m1, d1) := ord2ymd n1 in
  let '(y2, m2, d2) := ord2ymd n2 in
  lex (y1 ?= y2) (lex (m1 ?= m2) (d1 ?= d2)) = Lt.
Proof.
  intros Hlt.
  pose proof (ord2ymd_spec n1) as S1. pose proof (ord2ymd_spec n2) as S2.
  destruct (ord2ymd n1) as [[y1 m1] d1]. destruct (ord2ymd n2) as [[y2 m2] d2].
  destruct S1 as (Hm1 & Hd1 & E1). destruct S2 as (Hm2 & Hd2 & E2).
  destruct (lex (y1 ?= y2) (lex (m1 ?= m2) (d1 ?= d2))) eqn:El;
    [exfalso | reflexivity | exfalso].
  - assert (y1 = y2 /\ m1 = m2 /\ d1 = d2) as (-> & -> & ->).
    { destruct (Z.compare_spec y1 y2); cbn [lex] in El; try discriminate.
      destruct (Z.compare_spec m1 m2); cbn [lex] in El; try discriminate.
      apply Z.compare_eq_iff in El. auto. }
    lia.
  - assert (Hrev : lex (y2 ?= y1) (lex (m2 ?= m1) (d2 ?= d1)) = Lt).
    { rewrite (Z.compare_antisym y1 y2), (Z.compare_antisym m1 m2),
        (Z.compare_antisym d1 d2).
      destruct (y1 ?= y2), (m1 ?= m2), (d1 ?= d2); simpl in *; congruence. }
    pose proof (ymd2ord_mono _ _ _ _ _ _ Hm2 Hd2 Hm1 Hd1 Hrev). lia.
Qed.

(** ** Constructing and converting [datetime] values *)

Lemma datetime_new_ok (y m d hh mm ss us : Z) (tz : option ZoneInfo) (fd : Z) :
  1 <= y <= 9999 -> 1 <= m <= 12 -> 1 <= d <= days_in_month y m ->
  0 <= hh <= 23 -> 0 <= mm <= 59 -> 0 <= ss <= 59 -> 0 <= us <= 999999 ->
  0 <= fd <= 1 ->
  datetime_new y m d hh mm ss us tz fd = Ok (mk_datetime y m d hh mm ss us tz fd).
Proof.
  intros Hy Hm Hd Hhh Hmm Hss Hus Hfd. unfold datetime_new, MINYEAR, MAXYEAR.
  replace ((fd =? 0) || (fd =? 1)) with true by lia.
  replace ((1 <=? y) && (y <=? 9999)) with true by lia.
  replace ((1 <=? m) && (m <=? 12)) with true by lia.
  replace ((1 <=? d) && (d <=? days_in_month y m)) with true by lia.
  replace ((0 <=? hh) && (hh <=? 23)) with true by lia.
  replace ((0 <=? mm) && (mm <=? 59)) with true by lia.
  replace ((0 <=? ss) && (ss <=? 59)) with true by lia.
  replace ((0 <=? us) && (us <=? 999999)) with true by lia.
  reflexivity.
Qed.

Lemma wall_clock_ok (l us : Z) (tz : option ZoneInfo) (fd : Z) :
  1 <= l / 86400 + EPOCHORDINAL <= MAXORDINAL ->
  datetime_ok (wall_clock l us tz fd).
Proof.
  intros Hr. unfold wall_clock, datetime_ok.
  pose proof (ord2ymd_spec (l / 86400 + EPOCHORDINAL)) as Hs.
  pose proof (ord2ymd_year_range (l / 86400 + EPOCHORDINAL) Hr) as Hy.
  destruct (ord2ymd (l / 86400 + EPOCHORDINAL)) as [[y m] d]. simpl.
  destruct Hs as (Hm & Hd & _).
  repeat split; try lia; divlia.
Qed.

Lemma wall_clock_fields (l us : Z) (tz : option ZoneInfo) (fd : Z) :
  let dt := wall_clock l us tz fd in
  toordinal dt = l / 86400 + EPOCHORDINAL /\
  hour dt = l mod 86400 / 3600 /\
  minute dt = (l mod 86400) mod 3600 / 60 /\
  second dt = (l mod 86400) mod 60 /\
  microsecond dt = us.
Proof.
  unfold toordinal, wall_clock.
  pose proof (ord2ymd_spec (l / 86400 + EPOCHORDINAL)) as Hs.
  destruct (ord2ymd (l / 86400 + EPOCHORDINAL)) as [[y m] d].
  cbn [year month day hour minute second microsecond].
  destruct Hs as (_ & _ & ->). repeat split.
Qed.

(** Adding an offset to the wall clock of [l] gives the wall clock of
    [l + off], as long as the result stays within years 1..9999. *)
Lemma wall_clock_zone (l us : Z) (tz : option ZoneInfo) (fd : Z) :
  tzinfo (wall_clock l us tz fd) = tz /\ fold (wall_clock l us tz fd) = fd.
Proof.
  unfold wall_clock. destruct (ord2ymd (l / 86400 + EPOCHORDINAL)) as [[y m] d].
  split; reflexivity.
Qed.

Lemma datetime_add_seconds_wall_clock (l us off : Z) (tz : option ZoneInfo)
    (fd : Z) :
  1 <= (l + off) / 86400 + EPOCHORDINAL <= MAXORDINAL ->
  0 <= us <= 999999 ->
  datetime_add_seconds (wall_clock l us tz fd) off
  = Ok (wall_clock (l + off) us tz 0).
Proof.
  intros Hr Hus.
  pose proof (wall_clock_ok (l + off) us tz 0 Hr) as Hok.
  unfold datetime_add_seconds.
  rewrite (proj1 (wall_clock_zone l us tz fd)).
  destruct (wall_clock_fields l us tz fd) as (-> & -> & -> & -> & ->).
  set (r := l mod 86400).
  assert (Hday : l / 86400 + EPOCHORDINAL
                 + (r / 3600 * 3600 + r mod 3600 / 60 * 60 + r mod 60 + off) / 86400
                 = (l + off) / 86400 + EPOCHORDINAL).
  { subst r. divlia. }
  assert (Hsec : (r / 3600 * 3600 + r mod 3600 / 60 * 60 + r mod 60 + off) mod 86400
                 = (l + off) mod 86400).
  { subst r. divlia. }
  rewrite Hday, Hsec.
  replace ((0 <? (l + off) / 86400 + EPOCHORDINAL)
           && ((l + off) / 86400 + EPOCHORDINAL <=? MAXORDINAL)) with true by lia.
  unfold wall_clock, datetime_ok in *.
  destruct (ord2ymd ((l + off) / 86400 + EPOCHORDINAL)) as [[y' m'] d'].
  cbn [year month day hour minute second microsecond] in *.
  replace ((((l + off) mod 86400) mod 3600) mod 60)
    with (((l + off) mod 86400) mod 60) by divlia.
  apply datetime_new_ok; lia.
Qed.

Lemma get_local_timestamp_wall_clock (l us : Z) (tz : option ZoneInfo) (fd : Z) :
  get_local_timestamp (wall_clock l us tz fd) = l.
Proof.
  unfold get_local_timestamp.
  destruct (wall_clock_fields l us tz fd) as (-> & -> & -> & -> & _).
  unfold EPOCHORDINAL. divlia.
Qed.

(** ** The clock and the offsets of a host *)

Lemma clock_seconds_range (h : Host) :
  -9223372037 <= clock_seconds h <= 9223372036.
Proof.
  unfold clock_seconds. pose proof (ns_range (clock h)) as Hr.
  unfold in_int64 in Hr. change (2 ^ 63) with 9223372036854775808 in Hr.
  divlia.
Qed.

Lemma clock_micros_range (h : Host) : 0 <= clock_micros h <= 999999.
Proof. unfold clock_micros. divlia. Qed.

Lemma utcoff_range (tz : ZoneInfo) (t : Z) :
  -2147483648 <= i32 (utcoff tz t) < 2147483648.
Proof.
  pose proof (i32_range (utcoff tz t)) as Hr. unfold in_int32 in Hr.
  change (2 ^ 31) with 2147483648 in Hr. lia.
Qed.

Lemma local_seconds_in_range (h : Host) (tz : ZoneInfo) :
  1 <= local_seconds h tz / 86400 + EPOCHORDINAL <= MAXORDINAL.
Proof.
  unfold local_seconds, EPOCHORDINAL, MAXORDINAL.
  pose proof (clock_seconds_range h). pose proof (utcoff_range tz (clock_seconds h)).
  divlia.
Qed.

Lemma replace_fold_wall_clock (l us : Z) (tz : option ZoneInfo) (fd : Z) :
  1 <= l / 86400 + EPOCHORDINAL <= MAXORDINAL ->
  0 <= us <= 999999 ->
  replace_fold (wall_clock l us tz fd) 1 = Ok (wall_clock l us tz 1).
Proof.
  intros Hr Hus. pose proof (wall_clock_ok l us tz fd Hr) as Hok.
  unfold replace_fold, wall_clock, datetime_ok in *.
  destruct (ord2ymd (l / 86400 + EPOCHORDINAL)) as [[y m] d].
  cbn [year month day hour minute second microsecond tzinfo fold] in *.
  apply datetime_new_ok; lia.
Qed.

(** [datetime.now(tz)] never fails: it is the wall clock at the local
    seconds, with the offset and the fold taken at the instant the clock
    shows, and the zone attached. *)
Lemma datetime_now_wall_clock (h : Host) (tz : ZoneInfo) :
  datetime_now h tz
  = Ok (wall_clock (local_seconds h tz) (clock_micros h) (Some tz) (fold_now h tz)).
Proof.
  pose proof (clock_seconds_range h) as Hc.
  pose proof (clock_micros_range h) as Hus.
  assert (Hr : 1 <= clock_seconds h / 86400 + EPOCHORDINAL <= MAXORDINAL).
  { unfold EPOCHORDINAL, MAXORDINAL. divlia. }
  pose proof (wall_clock_ok (clock_seconds h) (clock_micros h) (Some tz) 0 Hr)
    as Hok.
  assert (Hutc : datetime_now h tz
                 = fromutc tz (wall_clock (clock_seconds h) (clock_micros h)
                                 (Some tz) 0)).
  { unfold datetime_now, gmtime, wall_clock, datetime_ok in *.
    destruct (ord2ymd (clock_seconds h / 86400 + EPOCHORDINAL)) as [[y m] d].
    cbn [year month day hour minute second microsecond] in Hok.
    rewrite Z.min_l by lia.
    rewrite datetime_new_ok by lia. reflexivity. }
  rewrite Hutc. unfold fromutc. rewrite get_local_timestamp_wall_clock.
  pose proof (local_seconds_in_range h tz) as Hl.
  unfold local_seconds, utcoff, fold_now in *.
  destruct (fromutc_lookup tz (clock_seconds h)) as [tti fd]. cbn [fst snd] in *.
  rewrite (datetime_add_seconds_wall_clock _ _ _ _ _ Hl Hus). cbn [bind].
  destruct fd; [|reflexivity].
  apply replace_fold_wall_clock; assumption.
Qed.

Lemma ord2ymd_year_lower (n : Z) :
  365000 <= n -> let '(y, _, _) := ord2ymd n in 1000 <= y.
Proof.
  intros Hn.
  destruct (ord2ymd_cases n) as [y [[E [Hl Hd]] | [r [Hr [Hd E]]]]]; rewrite E.
  - unfold days_before_year in Hd. divlia.
  - destruct (month_of_yday (is_leap y) r) as [m d].
    unfold days_before_year in Hd. divlia.
Qed.

(** The local year of a call has four digits. *)
Lemma local_year_range (h : Host) (tz : ZoneInfo) (us : Z)
    (z : option ZoneInfo) (fd : Z) :
  1000 <= year (wall_clock (local_seconds h tz) us z fd) <= 9999.
Proof.
  pose proof (wall_clock_ok _ us z fd (local_seconds_in_range h tz)) as Hok.
  destruct Hok as (Hy & _). split; [|lia].
  assert (Hn : 365000 <= local_seconds h tz / 86400 + EPOCHORDINAL).
  { unfold local_seconds, EPOCHORDINAL.
    pose proof (clock_seconds_range h).
    pose proof (utcoff_range tz (clock_seconds h)). divlia. }
  pose proof (ord2ymd_year_lower _ Hn) as Hlow. unfold wall_clock.
  destruct (ord2ymd (local_seconds h tz / 86400 + EPOCHORDINAL)) as [[y m] d].
  exact Hlow.
Qed.

(** ** Digits and padding *)

Lemma append_assoc (a b c : string) : (a ++ (b ++ c) = (a ++ b) ++ c)%string.
Proof. induction a as [|ch a IH]; simpl; [reflexivity | now rewrite IH]. Qed.

Lemma append_nil_r (a : string) : (a ++ "" = a)%string.
Proof. induction a as [|ch a IH]; simpl; [reflexivity | now rewrite IH]. Qed.

Lemma N_of_digit_char (d : Z) :
  0 <= d < 10 -> N_of_ascii (digit_char d) = Z.to_N (48 + d).
Proof.
  intros Hd. unfold digit_char. apply N_ascii_embedding. lia.
Qed.

Lemma is_digit_digit_char (d : Z) : 0 <= d < 10 -> is_digit (digit_char d) = true.
Proof.
  intros Hd. unfold is_digit. rewrite (N_of_digit_char d Hd). lia.
Qed.

Lemma digit_char_value (d : Z) :
  0 <= d < 10 -> Z.of_N (N_of_ascii (digit_char d)) - 48 = d.
Proof.
  intros Hd. rewrite (N_of_digit_char d Hd). lia.
Qed.

Lemma compare_digit_char (a b : Z) :
  0 <= a < 10 -> 0 <= b < 10 ->
  Ascii.compare (digit_char a) (digit_char b) = (a ?= b).
Proof.
  intros Ha Hb. unfold Ascii.compare.
  rewrite (N_of_digit_char a Ha), (N_of_digit_char b Hb).
  rewrite Z2N.inj_compare by lia. apply Z.add_compare_mono_l.
Qed.

Lemma zfill2_checked : forall_range zfill_check2 0 100 = true.
Proof. vm_compute. reflexivity. Qed.

Lemma zfill4_checked : forall_range zfill_check4 0 (Z.to_nat 10000) = true.
Proof. vm_compute. reflexivity. Qed.

Lemma zfill2_digits (n : Z) : 0 <= n < 100 -> zfill 2 n = digits2 n.
Proof.
  intros Hn. apply String.eqb_eq.
  apply (forall_range_spec zfill_check2 100 0 zfill2_checked). simpl. lia.
Qed.

Lemma zfill4_digits (n : Z) : 0 <= n < 10000 -> zfill 4 n = digits4 n.
Proof.
  intros Hn. apply String.eqb_eq.
  apply (forall_range_spec zfill_check4 _ 0 zfill4_checked).
  rewrite Z2Nat.id; lia.
Qed.

Lemma mod10_range (n : Z) : 0 <= n mod 10 < 10.
Proof. apply Z.mod_pos_bound. lia. Qed.

(** What [strftime] prints for a constructed [datetime]. *)
Lemma str_int4_checked : forall_range str_int_check4 1000 (Z.to_nat 9000) = true.
Proof. vm_compute. reflexivity. Qed.

Lemma str_int_zfill4 (n : Z) : 1000 <= n <= 9999 -> str_int n = zfill 4 n.
Proof.
  intros Hn. apply String.eqb_eq.
  apply (forall_range_spec str_int_check4 _ 1000 str_int4_checked).
  rewrite Z2Nat.id; lia.
Qed.

(** With a year of four digits the padding of [%Y] makes no difference. *)
Lemma time_strftime_pad (pad : bool) (t : struct_time) :
  1000 <= tm_year t <= 9999 ->
  time_strftime pad "%Y-%m-%d %H:%M:%S" t
  = time_strftime true "%Y-%m-%d %H:%M:%S" t.
Proof.
  intros Hy. destruct pad; [reflexivity|].
  change (time_strftime false "%Y-%m-%d %H:%M:%S" t)
    with (str_int (tm_year t) ++ String "-" (zfill 2 (tm_mon t) ++ String "-"
      (zfill 2 (tm_mday t) ++ String " " (zfill 2 (tm_hour t) ++ String ":"
        (zfill 2 (tm_min t) ++ String ":" (zfill 2 (tm_sec t) ++ ""))))))%string.
  rewrite (str_int_zfill4 _ Hy). reflexivity.
Qed.

Lemma strftime_digits (dt : datetime) (flag : Z) :
  datetime_ok dt ->
  time_strftime true "%Y-%m-%d %H:%M:%S" (tuple_of dt flag)
  = (digits4 (year dt) ++ String "-" (digits2 (month dt) ++ String "-"
      (digits2 (day dt) ++ String " " (digits2 (hour dt) ++ String ":"
        (digits2 (minute dt) ++ String ":" (digits2 (second dt)))))))%string.
Proof.
  intros (Hy & Hm & Hd & Hhh & Hmm & Hss).
  assert (Hd31 : day dt <= 31).
  { rewrite days_in_month_dim in Hd.
    assert (dim (is_leap (year dt)) (month dt) <= 31); [|lia].
    each_month Hm; rewrite Hm; destruct (is_leap (year dt)); calc_tbl; lia. }
  change (time_strftime true "%Y-%m-%d %H:%M:%S" (tuple_of dt flag))
    with (zfill 4 (year dt) ++ String "-" (zfill 2 (month dt) ++ String "-"
      (zfill 2 (day dt) ++ String " " (zfill 2 (hour dt) ++ String ":"
        (zfill 2 (minute dt) ++ String ":" (zfill 2 (second dt) ++ ""))))))%string.
  rewrite zfill4_digits by lia. rewrite !zfill2_digits by lia.
  reflexivity.
Qed.

Lemma matches_shape_digits2 (n : Z) (p : list shape_item) (s : string) :
  matches_shape (D :: D :: p) (digits2 n ++ s) = matches_shape p s.
Proof.
  unfold digits2. cbn [append matches_shape].
  rewrite !is_digit_digit_char by apply mod10_range. reflexivity.
Qed.

Lemma matches_shape_literal (c : ascii) (p : list shape_item) (s : string) :
  matches_shape (L c :: p) (String c s) = matches_shape p s.
Proof. cbn [matches_shape]. rewrite Ascii.eqb_refl. reflexivity. Qed.

Lemma strftime_shape (dt : datetime) (flag : Z) :
  datetime_ok dt -> is_formatted_time (time_strftime true "%Y-%m-%d %H:%M:%S" (tuple_of dt flag)) = true.
Proof.
  intros Hok. rewrite (strftime_digits dt flag Hok).
  unfold is_formatted_time, formatted_time_shape, digits4.
  rewrite <- append_assoc.
  rewrite <- (append_nil_r (digits2 (second dt))).
  repeat (rewrite matches_shape_digits2; rewrite ?matches_shape_literal).
  reflexivity.
Qed.

Lemma int_of_digits2 (acc n : Z) :
  0 <= n < 100 -> int_of_digits acc (digits2 n) = Some (acc * 100 + n).
Proof.
  intros Hn. unfold digits2. cbn [int_of_digits].
  rewrite !is_digit_digit_char by apply mod10_range.
  rewrite !digit_char_value by apply mod10_range.
  f_equal. divlia.
Qed.

Lemma int_of_digits4 (n : Z) :
  0 <= n < 10000 -> int_of_digits 0 (digits4 n) = Some n.
Proof.
  intros Hn. unfold digits4.
  assert (H1 : 0 <= n / 100 < 100) by divlia.
  assert (H2 : 0 <= n mod 100 < 100) by divlia.
  unfold digits2 at 1. cbn [append int_of_digits].
  change (String (digit_char ((n mod 100) / 10 mod 10))
            (String (digit_char ((n mod 100) mod 10)) ""))
    with (digits2 (n mod 100)).
  rewrite !is_digit_digit_char by apply mod10_range.
  rewrite !digit_char_value by apply mod10_range.
  rewrite int_of_digits2 by lia. f_equal. divlia.
Qed.

(** The fields read back from the formatted string are the fields of the
    [datetime]. *)
Lemma strftime_components (dt : datetime) (flag : Z) :
  datetime_ok dt ->
  components (time_strftime true "%Y-%m-%d %H:%M:%S" (tuple_of dt flag))
  = Some (year dt, month dt, day dt, hour dt, minute dt, second dt).
Proof.
  intros Hok. rewrite (strftime_digits dt flag Hok).
  destruct Hok as (Hy & Hm & Hd & Hhh & Hmm & Hss).
  assert (Hd31 : day dt <= 31).
  { rewrite days_in_month_dim in Hd.
    assert (dim (is_leap (year dt)) (month dt) <= 31); [|lia].
    each_month Hm; rewrite Hm; destruct (is_leap (year dt)); calc_tbl; lia. }
  unfold components, field.
  change (substring 0 4 _) with (digits4 (year dt)).
  change (substring 5 2 _) with (digits2 (month dt)).
  change (substring 8 2 _) with (digits2 (day dt)).
  change (substring 11 2 _) with (digits2 (hour dt)).
  change (substring 14 2 _) with (digits2 (minute dt)).
  change (substring 17 2 _) with (digits2 (second dt)).
  rewrite int_of_digits4 by lia. rewrite !int_of_digits2 by lia.
  reflexivity.
Qed.

(** ** Lexicographic order of formatted times *)

Lemma compare_digits2 (x y : Z) (s t : string) :
  0 <= x < 100 -> 0 <= y < 100 ->
  String.compare (digits2 x ++ s) (digits2 y ++ t)
  = lex (x ?= y) (String.compare s t).
Proof.
  intros Hx Hy. unfold digits2. cbn [append String.compare].
  rewrite !compare_digit_char by apply mod10_range.
  destruct (Z.compare_spec (x / 10 mod 10) (y / 10 mod 10));
    destruct (Z.compare_spec (x mod 10) (y mod 10));
    destruct (Z.compare_spec x y); cbn [lex]; try reflexivity;
    exfalso; divlia.
Qed.

Lemma compare_digits4 (x y : Z) (s t : string) :
  0 <= x < 10000 -> 0 <= y < 10000 ->
  String.compare (digits4 x ++ s) (digits4 y ++ t)
  = lex (x ?= y) (String.compare s t).
Proof.
  intros Hx Hy. unfold digits4. rewrite <- !append_assoc.
  rewrite !compare_digits2 by divlia.
  destruct (Z.compare_spec (x / 100) (y / 100));
    destruct (Z.compare_spec (x mod 100) (y mod 100));
    destruct (Z.compare_spec x y); cbn [lex]; try reflexivity;
    exfalso; divlia.
Qed.

Lemma compare_separator (c : ascii) (s t : string) :
  String.compare (String c s) (String c t) = String.compare s t.
Proof.
  cbn [String.compare]. unfold Ascii.compare. rewrite N.compare_refl.
  reflexivity.
Qed.

Lemma datetime_ok_bounds (dt : datetime) :
  datetime_ok dt ->
  0 <= year dt < 10000 /\ 0 <= month dt < 100 /\ 0 <= day dt < 100 /\
  0 <= hour dt < 100 /\ 0 <= minute dt < 100 /\ 0 <= second dt < 100.
Proof.
  intros (Hy & Hm & Hd & Hhh & Hmm & Hss).
  assert (Hd31 : day dt <= 31).
  { rewrite days_in_month_dim in Hd.
    assert (dim (is_leap (year dt)) (month dt) <= 31); [|lia].
    each_month Hm; rewrite Hm; destruct (is_leap (year dt)); calc_tbl; lia. }
  lia.
Qed.

(** Comparing two formatted times as strings compares their fields in
    calendar order. *)
Lemma compare_strftime (a b : datetime) (fa fb : Z) :
  datetime_ok a -> datetime_ok b ->
  String.compare (time_strftime true "%Y-%m-%d %H:%M:%S" (tuple_of a fa))
                 (time_strftime true "%Y-%m-%d %H:%M:%S" (tuple_of b fb))
  = datetime_compare a b.
Proof.
  intros Ha Hb. rewrite (strftime_digits a fa Ha), (strftime_digits b fb Hb).
  apply datetime_ok_bounds in Ha, Hb.
  rewrite <- (append_nil_r (digits2 (second a))).
  rewrite <- (append_nil_r (digits2 (second b))).
  unfold datetime_compare.
  rewrite compare_digits4 by lia. rewrite compare_separator.
  repeat (rewrite compare_digits2 by lia; rewrite ?compare_separator).
  cbn [String.compare].
  destruct (second a ?= second b); reflexivity.
Qed.

Lemma String_leb_compare (s t : string) :
  (s <=? t)%string = true <-> String.compare s t <> Gt.
Proof.
  unfold String.leb. destruct (String.compare s t); split; congruence.
Qed.

(** ** The handler *)

Lemma get_rome_tz_found (h : Host) (tz : ZoneInfo) :
  tzdb h TZ_NAME = Found tz -> get_rome_tz h = Ok tz.
Proof. intros E. unfold get_rome_tz, ZoneInfo_new. rewrite E. reflexivity. Qed.

Lemma get_rome_tz_not_found (h : Host) (text : string) :
  tzdb h TZ_NAME = NotFound text ->
  get_rome_tz h = Raise (HTTPException 500 (tz_error_detail text)).
Proof. intros E. unfold get_rome_tz, ZoneInfo_new. rewrite E. reflexivity. Qed.

Lemma ZoneInfo_new_Ok (h : Host) (tz : ZoneInfo) :
  ZoneInfo_new h TZ_NAME = Ok tz <-> tzdb h TZ_NAME = Found tz.
Proof.
  unfold ZoneInfo_new. destruct (tzdb h TZ_NAME); split; congruence.
Qed.

(** The rendering ignores the microseconds, the zone, the fold and the
    DST flag. *)
Lemma time_strftime_wall_clock (l us : Z) (tz : option ZoneInfo) (fd flag : Z) :
  time_strftime true "%Y-%m-%d %H:%M:%S" (tuple_of (wall_clock l us tz fd) flag)
  = render l.
Proof.
  unfold render, wall_clock.
  destruct (ord2ymd (l / 86400 + EPOCHORDINAL)) as [[y m] d]. reflexivity.
Qed.

(** What [strftime] does with the local time of a call. *)
Lemma strftime_local (h : Host) (tz : ZoneInfo) (pad : bool) :
  strftime pad
    (wall_clock (local_seconds h tz) (clock_micros h) (Some tz) (fold_now h tz))
    "%Y-%m-%d %H:%M:%S"
  = if dst_in_range (dst_now h tz)
    then Ok (render (local_seconds h tz))
    else Raise DST_RANGE_ERROR.
Proof.
  unfold strftime, timetuple, dst.
  destruct (wall_clock_zone (local_seconds h tz) (clock_micros h) (Some tz)
              (fold_now h tz)) as [-> ->].
  rewrite get_local_timestamp_wall_clock. fold (dst_now h tz).
  destruct (dst_in_range (dst_now h tz)); [|reflexivity].
  cbn [bind]. f_equal.
  set (dt := wall_clock (local_seconds h tz) (clock_micros h) (Some tz)
               (fold_now h tz)).
  set (flag := if dst_now h tz =? 0 then 0 else 1).
  change (build_struct_time (year dt) (month dt) (day dt) (hour dt) (minute dt)
            (second dt) flag) with (tuple_of dt flag).
  rewrite time_strftime_pad; [apply time_strftime_wall_clock|].
  apply local_year_range.
Qed.

(** Once the zone has resolved, the handler returns the rendering of the
    local wall clock, unless the DST offset of the zone for that local time
    is out of range: then [strftime] raises. *)
Lemma che_ore_sono_resolved (h : Host) (tz : ZoneInfo) :
  tzdb h TZ_NAME = Found tz ->
  che_ore_sono h
  = if dst_in_range (dst_now h tz)
    then Ok (render (local_seconds h tz))
    else Raise DST_RANGE_ERROR.
Proof.
  intros E. unfold che_ore_sono. rewrite (get_rome_tz_found h tz E).
  cbn [bind]. rewrite datetime_now_wall_clock. cbn [bind].
  apply strftime_local.
Qed.


Lemma che_ore_sono_raise (h : Host) (e : exn) :
  get_rome_tz h = Raise e -> che_ore_sono h = Raise e.
Proof. intros E. unfold che_ore_sono. rewrite E. reflexivity. Qed.

Lemma che_ore_sono_Ok_inv (h : Host) (s : string) :
  che_ore_sono h = Ok s ->
  exists tz, tzdb h TZ_NAME = Found tz /\ s = render (local_seconds h tz).
Proof.
  intros E. destruct (tzdb h TZ_NAME) as [tz | text | text | text | text | cls text] eqn:Edb.
  - exists tz. split; [reflexivity|].
    rewrite (che_ore_sono_resolved h tz Edb) in E.
    destruct (dst_in_range (dst_now h tz)); congruence.
  - unfold che_ore_sono, get_rome_tz, ZoneInfo_new in E. rewrite Edb in E.
    discriminate.
  - unfold che_ore_sono, get_rome_tz, ZoneInfo_new in E. rewrite Edb in E.
    discriminate.
  - unfold che_ore_sono, get_rome_tz, ZoneInfo_new in E. rewrite Edb in E.
    discriminate.
  - unfold che_ore_sono, get_rome_tz, ZoneInfo_new in E. rewrite Edb in E.
    discriminate.
  - unfold che_ore_sono, get_rome_tz, ZoneInfo_new in E. rewrite Edb in E.
    discriminate.
Qed.

(** The result of the handler, given the zone of the same name. *)
Lemma che_ore_sono_of_zone (h : Host) (tz : ZoneInfo) (s : string) :
  tzdb h TZ_NAME = Found tz -> che_ore_sono h = Ok s ->
  s = render (local_seconds h tz).
Proof.
  intros E Hs. destruct (che_ore_sono_Ok_inv h s Hs) as (tz' & E' & ->).
  rewrite E in E'. injection E' as <-. reflexivity.
Qed.

Lemma render_ok (h : Host) (tz : ZoneInfo) :
  datetime_ok (wall_clock (local_seconds h tz) 0 None 0).
Proof. apply wall_clock_ok, local_seconds_in_range. Qed.

(** ** Substrings and the JSON body *)

Lemma prefix_append (n post : string) : prefix n (n ++ post) = true.
Proof.
  induction n as [|c n IH]; [destruct post; reflexivity|].
  cbn [append prefix]. destruct (ascii_dec c c); [exact IH | congruence].
Qed.

Lemma contains_intro (needle pre post : string) :
  contains needle (pre ++ needle ++ post) = true.
Proof.
  induction pre as [|c pre IH].
  - cbn [append]. destruct (needle ++ post)%string eqn:E.
    + cbn [contains]. rewrite <- E, prefix_append. reflexivity.
    + cbn [contains]. rewrite <- E, prefix_append. reflexivity.
  - cbn [append contains]. rewrite IH. apply orb_true_r.
Qed.



Lemma prefix_app_l (n a b : string) :
  prefix n a = true -> prefix n (a ++ b) = true.
Proof.
  revert a. induction n as [|c n IH]; intros a H.
  - destruct (a ++ b)%string; reflexivity.
  - destruct a as [|c' a]; [discriminate|]. cbn [append prefix] in *.
    destruct (ascii_dec c c'); [apply IH, H | discriminate].
Qed.

Lemma contains_cons (n : string) (c : ascii) (s : string) :
  contains n s = true -> contains n (String c s) = true.
Proof. intros H. cbn [contains]. rewrite H. apply orb_true_r. Qed.

Lemma contains_app_r (n a b : string) :
  contains n b = true -> contains n (a ++ b) = true.
Proof.
  intros H. induction a as [|c a IH]; [exact H|].
  cbn [append]. apply contains_cons, IH.
Qed.

Lemma contains_app_l (n a b : string) :
  contains n a = true -> contains n (a ++ b) = true.
Proof.
  induction a as [|c a IH]; intros H.
  - destruct n; [|discriminate]. destruct b; reflexivity.
  - cbn [append contains] in *. apply orb_true_iff in H. destruct H as [H | H].
    + change (String c (a ++ b)) with (String c a ++ b)%string.
      rewrite (prefix_app_l _ _ b H). reflexivity.
    + rewrite (IH H). apply orb_true_r.
Qed.

Lemma detail_names_zone (text : string) :
  contains TZ_NAME (tz_error_detail text) = true.
Proof. unfold tz_error_detail. apply contains_intro. Qed.

Lemma detail_names_tzdata (text : string) :
  contains "'tzdata'" (tz_error_detail text) = true.
Proof.
  unfold tz_error_detail. do 5 apply contains_app_r. reflexivity.
Qed.




(** ** Order of wall clocks *)

Lemma datetime_compare_date_Lt (a b : datetime) :
  lex (year a ?= year b) (lex (month a ?= month b) (day a ?= day b)) = Lt ->
  datetime_compare a b = Lt.
Proof.
  unfold datetime_compare.
  destruct (year a ?= year b), (month a ?= month b), (day a ?= day b);
    cbn [lex]; congruence.
Qed.

(** A later wall clock never compares below an earlier one. *)
Lemma wall_clock_compare (l1 l2 : Z) :
  l1 <= l2 ->
  datetime_compare (wall_clock l1 0 None 0) (wall_clock l2 0 None 0) <> Gt.
Proof.
  intros Hle.
  destruct (Z.eq_dec (l1 / 86400) (l2 / 86400)) as [Ed | Hd].
  - unfold datetime_compare, wall_clock. rewrite Ed.
    destruct (ord2ymd (l2 / 86400 + EPOCHORDINAL)) as [[y m] d].
    cbn [year month day hour minute second]. rewrite !Z.compare_refl.
    cbn [lex].
    destruct (Z.compare_spec (l1 mod 86400 / 3600) (l2 mod 86400 / 3600));
      destruct (Z.compare_spec ((l1 mod 86400) mod 3600 / 60)
                               ((l2 mod 86400) mod 3600 / 60));
      destruct (Z.compare_spec ((l1 mod 86400) mod 60) ((l2 mod 86400) mod 60));
      cbn [lex]; try discriminate; exfalso; divlia.
  - assert (Hlt : l1 / 86400 + EPOCHORDINAL < l2 / 86400 + EPOCHORDINAL)
      by divlia.
    pose proof (ord2ymd_mono _ _ Hlt) as Hm.
    rewrite (datetime_compare_date_Lt (wall_clock l1 0 None 0)
               (wall_clock l2 0 None 0)); [discriminate|].
    unfold wall_clock.
    destruct (ord2ymd (l1 / 86400 + EPOCHORDINAL)) as [[y1 m1] d1].
    destruct (ord2ymd (l2 / 86400 + EPOCHORDINAL)) as [[y2 m2] d2].
    exact Hm.
Qed.

(** The rendering is monotone on the instants a host can reach. *)
Lemma render_monotone (h1 h2 : Host) (tz : ZoneInfo) :
  local_seconds h1 tz <= local_seconds h2 tz ->
  (render (local_seconds h1 tz) <=? render (local_seconds h2 tz))%string = true.
Proof.
  intros Hle. apply String_leb_compare. unfold render.
  rewrite compare_strftime by apply render_ok.
  apply wall_clock_compare, Hle.
Qed.

Lemma time_of_day_render (h : Host) (tz : ZoneInfo) :
  time_of_day (render (local_seconds h tz))
  = Some (local_seconds h tz mod 86400).
Proof.
  unfold time_of_day, render.
  rewrite (strftime_components _ _ (render_ok h tz)).
  destruct (wall_clock_fields (local_seconds h tz) 0 None 0)
    as (_ & -> & -> & -> & _).
  f_equal. divlia.
Qed.

(** ** The claims *)

(** C1. Every string the handler returns has the shape
    [YYYY-MM-DD HH:MM:SS]: four digits, dash, two digits, dash, two digits,
    space, two digits, colon, two digits, colon, two digits; whatever the
    clock shows, whatever the zone file holds and whether or not the C
    library pads the year. *)
Theorem che_ore_sono_shape (h : Host) (s : string) :
  che_ore_sono h = Ok s -> is_formatted_time s = true.
Proof.
  intros E. apply che_ore_sono_Ok_inv in E. destruct E as (tz & _ & ->).
  apply strftime_shape, render_ok.
Qed.

Lemma che_ore_sono_shape_witness :
  is_formatted_time "2024-03-15 14:05:09" = true.
Proof.
  apply (che_ore_sono_shape host_2024_03_15 "2024-03-15 14:05:09").
  reflexivity.
Defined.

(** C2. When the zone database has no entry for Europe/Rome, the handler
    fails with the HTTP 500 error whose detail carries the remediation hint
    (it names the zone and the [tzdata] package), and it returns no string;
    for every host the error exit and the string exit exclude each other. *)
Theorem che_ore_sono_zone_missing (h : Host) (text : string) :
  ZoneInfo_new h TZ_NAME = Raise (ZoneInfoNotFoundError text) ->
  che_ore_sono h = Raise (HTTPException 500 (tz_error_detail text))
  /\ contains TZ_NAME (tz_error_detail text) = true
  /\ contains "Install the 'tzdata' package" (tz_error_detail text) = true
  /\ (forall s, che_ore_sono h <> Ok s)
  /\ (forall (h' : Host) (s : string) (e : exn),
        ~ (che_ore_sono h' = Ok s /\ che_ore_sono h' = Raise e)).
Proof.
  intros E.
  assert (Hr : che_ore_sono h = Raise (HTTPException 500 (tz_error_detail text))).
  { apply che_ore_sono_raise. unfold get_rome_tz. rewrite E. reflexivity. }
  split; [exact Hr|]. split; [apply detail_names_zone|]. split.
  - unfold tz_error_detail. do 5 apply contains_app_r. reflexivity.
  - split.
    + intros s Hs. rewrite Hr in Hs. discriminate.
    + intros h' s e [H1 H2]. rewrite H1 in H2. discriminate.
Qed.

Lemma che_ore_sono_zone_missing_witness :
  che_ore_sono host_missing
  = Raise (HTTPException 500
      (tz_error_detail "'No time zone found with key Europe/Rome'")).
Proof.
  apply (che_ore_sono_zone_missing host_missing
           "'No time zone found with key Europe/Rome'").
  reflexivity.
Defined.

(** C3. Each call takes the offset the zone rules give at the instant of
    that call.  So for two calls one second apart, the second at a spring
    transition where the offset grows by one hour, the formatted wall clock
    that the second call returns is one second and exactly one hour past
    the one that the first call returns. *)
Theorem che_ore_sono_spring_forward (h1 h2 : Host) (tz : ZoneInfo)
    (s1 s2 : string) :
  tzdb h1 TZ_NAME = Found tz -> tzdb h2 TZ_NAME = Found tz ->
  clock_seconds h2 = clock_seconds h1 + 1 ->
  i32 (utcoff tz (clock_seconds h2)) = i32 (utcoff tz (clock_seconds h1)) + 3600 ->
  che_ore_sono h1 = Ok s1 -> che_ore_sono h2 = Ok s2 ->
  s1 = render (clock_seconds h1 + i32 (utcoff tz (clock_seconds h1)))
  /\ s2 = render (clock_seconds h1 + i32 (utcoff tz (clock_seconds h1))
                  + 1 + 3600)
  /\ exists t,
       time_of_day s1 = Some t
       /\ time_of_day s2 = Some ((t + 1 + 3600) mod 86400).
Proof.
  intros E1 E2 Hc Hoff R1 R2.
  assert (Hl : local_seconds h2 tz = local_seconds h1 tz + 1 + 3600).
  { unfold local_seconds. rewrite Hoff, Hc. lia. }
  rewrite (che_ore_sono_of_zone h1 tz s1 E1 R1).
  rewrite (che_ore_sono_of_zone h2 tz s2 E2 R2).
  split; [reflexivity|]. split; [rewrite Hl; reflexivity|].
  exists (local_seconds h1 tz mod 86400).
  split; [apply time_of_day_render|].
  rewrite time_of_day_render, Hl. f_equal. divlia.
Qed.

Lemma che_ore_sono_spring_forward_witness :
  che_ore_sono host_spring_before = Ok "2024-03-31 01:59:59"
  /\ che_ore_sono host_spring_at = Ok "2024-03-31 03:00:00"
  /\ exists t,
       time_of_day "2024-03-31 01:59:59" = Some t
       /\ time_of_day "2024-03-31 03:00:00" = Some ((t + 1 + 3600) mod 86400).
Proof.
  split; [reflexivity|]. split; [reflexivity|].
  apply (che_ore_sono_spring_forward host_spring_before host_spring_at
           europe_rome_2024 "2024-03-31 01:59:59" "2024-03-31 03:00:00");
    reflexivity.
Defined.

(** C4. Two calls whose clocks read the same second, against the same zone
    entry, return the same result, byte for byte; nothing else about the
    host (the nanoseconds, the rest of the database) reaches the output. *)
Theorem che_ore_sono_same_second (h1 h2 : Host) :
  tzdb h1 TZ_NAME = tzdb h2 TZ_NAME ->
  clock_seconds h1 = clock_seconds h2 ->
  che_ore_sono h1 = che_ore_sono h2.
Proof.
  intros Edb Hc.
  destruct (tzdb h2 TZ_NAME) as [tz | text | text | text | text | cls text] eqn:E2.
  - rewrite (che_ore_sono_resolved h1 tz Edb), (che_ore_sono_resolved h2 tz E2).
    unfold dst_now, fold_now, local_seconds. rewrite Hc. reflexivity.
  - unfold che_ore_sono, get_rome_tz, ZoneInfo_new. rewrite Edb, E2. reflexivity.
  - unfold che_ore_sono, get_rome_tz, ZoneInfo_new. rewrite Edb, E2. reflexivity.
  - unfold che_ore_sono, get_rome_tz, ZoneInfo_new. rewrite Edb, E2. reflexivity.
  - unfold che_ore_sono, get_rome_tz, ZoneInfo_new. rewrite Edb, E2. reflexivity.
  - unfold che_ore_sono, get_rome_tz, ZoneInfo_new. rewrite Edb, E2. reflexivity.
Qed.

Lemma che_ore_sono_same_second_witness :
  ns (clock host_2024_03_15) <> ns (clock host_2024_03_15_later)
  /\ che_ore_sono host_2024_03_15 = che_ore_sono host_2024_03_15_later.
Proof.
  split; [discriminate|].
  apply (che_ore_sono_same_second host_2024_03_15 host_2024_03_15_later);
    reflexivity.
Defined.

(** C5, as the code has it.  When the clock has not gone back and the
    offset of the zone has not dropped by more than the time elapsed between
    the two calls (in particular when both instants have the same offset),
    the later string is lexicographically greater than or equal to the
    earlier one. *)
Theorem che_ore_sono_monotone (h1 h2 : Host) (tz : ZoneInfo) (s1 s2 : string) :
  tzdb h1 TZ_NAME = Found tz -> tzdb h2 TZ_NAME = Found tz ->
  clock_seconds h1 <= clock_seconds h2 ->
  i32 (utcoff tz (clock_seconds h1)) - i32 (utcoff tz (clock_seconds h2))
    <= clock_seconds h2 - clock_seconds h1 ->
  che_ore_sono h1 = Ok s1 -> che_ore_sono h2 = Ok s2 ->
  (s1 <=? s2)%string = true.
Proof.
  intros E1 E2 Hc Hoff R1 R2.
  rewrite (che_ore_sono_of_zone h1 tz s1 E1 R1).
  rewrite (che_ore_sono_of_zone h2 tz s2 E2 R2).
  apply render_monotone. unfold local_seconds. lia.
Qed.

Lemma che_ore_sono_monotone_witness :
  ("2024-03-31 01:59:59" <=? "2024-03-31 03:00:00")%string = true.
Proof.
  apply (che_ore_sono_monotone host_spring_before host_spring_at
           europe_rome_2024);
    try reflexivity; vm_compute; discriminate.
Defined.

(** C5 as stated fails at the autumn transition: the clock advances by one
    second, the wall clock goes back from 02:59:59 to 02:00:00, and the
    later string is the smaller one. *)
Lemma che_ore_sono_not_monotone :
  tzdb host_autumn_before TZ_NAME = tzdb host_autumn_at TZ_NAME
  /\ clock_seconds host_autumn_before < clock_seconds host_autumn_at
  /\ che_ore_sono host_autumn_before = Ok "2024-10-27 02:59:59"
  /\ che_ore_sono host_autumn_at = Ok "2024-10-27 02:00:00"
  /\ ("2024-10-27 02:59:59" <=? "2024-10-27 02:00:00")%string = false.
Proof. repeat split. Qed.

(** C6. Every string the handler returns reads back as six numbers with
    the month in 1..12, the day within that month of that year (leap years
    included), the hour in 0..23, minute and second in 0..59. *)
Theorem che_ore_sono_components (h : Host) (s : string) :
  che_ore_sono h = Ok s ->
  exists c, components s = Some c /\ valid_components c.
Proof.
  intros E. apply che_ore_sono_Ok_inv in E. destruct E as (tz & _ & ->).
  pose proof (render_ok h tz) as Hok. unfold render.
  rewrite (strftime_components _ _ Hok). eexists. split; [reflexivity|].
  unfold valid_components. destruct Hok as (_ & Hm & Hd & Hhh & Hmm & Hss).
  auto.
Qed.

Lemma che_ore_sono_components_witness :
  exists c, components "2024-02-29 23:30:00" = Some c /\ valid_components c.
Proof.
  apply (che_ore_sono_components host_leap_day "2024-02-29 23:30:00").
  reflexivity.
Defined.

Lemma strftime_raise_inv (pad : bool) (dt : datetime) (fmt : string) (e : exn) :
  strftime pad dt fmt = Raise e -> e = DST_RANGE_ERROR.
Proof.
  unfold strftime, timetuple, dst. destruct (tzinfo dt) as [tz|].
  - destruct (dst_in_range _); cbn [bind]; congruence.
  - cbn [bind]. discriminate.
Qed.

(** Where an error of the handler comes from: the zone is missing, or the
    lookup failed otherwise, or the zone resolved and its DST offset for the
    local time of the call is out of range. *)
Lemma che_ore_sono_error_cases (h : Host) (e : exn) :
  che_ore_sono h = Raise e ->
  (exists text, ZoneInfo_new h TZ_NAME = Raise (ZoneInfoNotFoundError text)
                /\ e = HTTPException 500 (tz_error_detail text))
  \/ (ZoneInfo_new h TZ_NAME = Raise e
      /\ forall code detail, e <> HTTPException code detail)
  \/ (exists tz, ZoneInfo_new h TZ_NAME = Ok tz
                 /\ dst_in_range (dst_now h tz) = false
                 /\ e = DST_RANGE_ERROR).
Proof.
  intros He. unfold ZoneInfo_new.
  destruct (tzdb h TZ_NAME) as [tz | text | text | text | text | cls text] eqn:Edb.
  - right. right. exists tz. split; [reflexivity|].
    rewrite (che_ore_sono_resolved h tz Edb) in He.
    destruct (dst_in_range (dst_now h tz)); [discriminate|].
    split; [reflexivity | congruence].
  - left. exists text. split; [reflexivity|].
    rewrite (che_ore_sono_raise h _ (get_rome_tz_not_found h text Edb)) in He.
    congruence.
  - right. left. unfold che_ore_sono, get_rome_tz, ZoneInfo_new in He.
    rewrite Edb in He. cbn [bind] in He. injection He as <-.
    split; [reflexivity | discriminate].
  - right. left. unfold che_ore_sono, get_rome_tz, ZoneInfo_new in He.
    rewrite Edb in He. cbn [bind] in He. injection He as <-.
    split; [reflexivity | discriminate].
  - right. left. unfold che_ore_sono, get_rome_tz, ZoneInfo_new in He.
    rewrite Edb in He. cbn [bind] in He. injection He as <-.
    split; [reflexivity | discriminate].
  - right. left. unfold che_ore_sono, get_rome_tz, ZoneInfo_new in He.
    rewrite Edb in He. cbn [bind] in He. injection He as <-.
    split; [reflexivity | discriminate].
Qed.




Lemma ZoneInfo_new_other (h : Host) (e : exn) :
  ZoneInfo_new h TZ_NAME = Raise e ->
  (forall text, e <> ZoneInfoNotFoundError text) ->
  che_ore_sono h = Raise e /\ forall code detail, e <> HTTPException code detail.
Proof.
  intros E Hne. unfold che_ore_sono, get_rome_tz. rewrite E.
  unfold ZoneInfo_new in E.
  destruct (tzdb h TZ_NAME) as [tz | text | text | text | text | cls text];
    try discriminate; injection E as <-.
  - exfalso. exact (Hne text eq_refl).
  - split; [reflexivity | discriminate].
  - split; [reflexivity | discriminate].
  - split; [reflexivity | discriminate].
  - split; [reflexivity | discriminate].
Qed.




(** C9, as the code has it.  For a missing zone [get_rome_tz], inside the
    handler, raises the framework's [HTTPException] with status code 500
    already set; the route only copies the status code that the exception
    carries into the response. *)
Theorem get_rome_tz_sets_status (h : Host) (text : string) :
  ZoneInfo_new h TZ_NAME = Raise (ZoneInfoNotFoundError text) ->
  get_rome_tz h = Raise (HTTPException 500 (tz_error_detail text))
  /\ che_ore_sono h = Raise (HTTPException 500 (tz_error_detail text))
  /\ status (get_che_ore_sono h) = 500
  /\ (forall (h' : Host) (code : Z) (detail : string),
        che_ore_sono h' = Raise (HTTPException code detail) ->
        status (get_che_ore_sono h') = code).
Proof.
  intros E.
  assert (Hg : get_rome_tz h = Raise (HTTPException 500 (tz_error_detail text))).
  { unfold get_rome_tz. rewrite E. reflexivity. }
  pose proof (che_ore_sono_raise h _ Hg) as Hc.
  split; [exact Hg|]. split; [exact Hc|]. split.
  - unfold get_che_ore_sono. rewrite Hc. reflexivity.
  - intros h' code detail H'. unfold get_che_ore_sono. rewrite H'. reflexivity.
Qed.

Lemma get_rome_tz_sets_status_witness :
  get_rome_tz host_missing
  = Raise (HTTPException 500
      (tz_error_detail "'No time zone found with key Europe/Rome'")).
Proof.
  apply (get_rome_tz_sets_status host_missing
           "'No time zone found with key Europe/Rome'").
  reflexivity.
Defined.

(** C9 as stated fails: the error value that [get_rome_tz] produces is the
    HTTP exception itself, with the transport status code 500 in it. *)
Lemma get_rome_tz_raises_http :
  exists detail, get_rome_tz host_missing = Raise (HTTPException 500 detail).
Proof. eexists. reflexivity. Qed.

(** C10. [get_rome_tz] turns [ZoneInfoNotFoundError], and nothing else,
    into the HTTP 500 error; its detail always names Europe/Rome and
    ['tzdata']; any other exception of the lookup leaves the handler as it
    was raised; and so does the exception that formatting raises after the
    lookup: nothing in the handler catches it, and it is no HTTP error. *)
Theorem get_rome_tz_converts_only_not_found (h : Host) :
  (forall text, ZoneInfo_new h TZ_NAME = Raise (ZoneInfoNotFoundError text) ->
     che_ore_sono h = Raise (HTTPException 500 (tz_error_detail text))
     /\ contains TZ_NAME (tz_error_detail text) = true
     /\ contains "'tzdata'" (tz_error_detail text) = true)
  /\ (forall e, ZoneInfo_new h TZ_NAME = Raise e ->
        (forall text, e <> ZoneInfoNotFoundError text) ->
        get_rome_tz h = Raise e /\ che_ore_sono h = Raise e
        /\ forall code detail, e <> HTTPException code detail)
  /\ (forall tz now e, ZoneInfo_new h TZ_NAME = Ok tz ->
        datetime_now h tz = Ok now ->
        strftime (pads_year h) now "%Y-%m-%d %H:%M:%S" = Raise e ->
        che_ore_sono h = Raise e
        /\ forall code detail, e <> HTTPException code detail)
  /\ (forall code detail, che_ore_sono h = Raise (HTTPException code detail) ->
        exists text,
          ZoneInfo_new h TZ_NAME = Raise (ZoneInfoNotFoundError text)
          /\ code = 500 /\ detail = tz_error_detail text).
Proof.
  split; [|split; [|split]].
  - intros text E. split.
    + apply che_ore_sono_raise. unfold get_rome_tz. rewrite E. reflexivity.
    + split; [apply detail_names_zone | apply detail_names_tzdata].
  - intros e E Hne. destruct (ZoneInfo_new_other h e E Hne) as [Hc Hhttp].
    split; [|split; assumption].
    unfold get_rome_tz. rewrite E. destruct e; try reflexivity.
    exfalso. exact (Hne _ eq_refl).
  - intros tz now e E Hnow Hfmt. split.
    + unfold che_ore_sono, get_rome_tz. rewrite E. cbn [bind].
      rewrite Hnow. cbn [bind]. exact Hfmt.
    + rewrite (strftime_raise_inv _ _ _ _ Hfmt). discriminate.
  - intros code detail He.
    destruct (che_ore_sono_error_cases h _ He)
      as [(text & E & Heq) | [(_ & Hne) | (tz & _ & _ & Heq)]].
    + exists text. injection Heq as -> ->. auto.
    + exfalso. exact (Hne code detail eq_refl).
    + discriminate.
Qed.

Lemma get_rome_tz_converts_only_not_found_witness :
  che_ore_sono host_unreadable = Raise (OSError "[Errno 13] Permission denied")
  /\ che_ore_sono host_dst_25h = Raise DST_RANGE_ERROR.
Proof.
  split.
  - apply (proj1 (proj2 (get_rome_tz_converts_only_not_found host_unreadable))
             (OSError "[Errno 13] Permission denied"));
      [reflexivity | discriminate].
  - apply (proj1 (proj2 (proj2
             (get_rome_tz_converts_only_not_found host_dst_25h)))
             zone_dst_25h
             (wall_clock (local_seconds host_dst_25h zone_dst_25h)
                (clock_micros host_dst_25h) (Some zone_dst_25h) 0));
      reflexivity.
Defined.

(** ** What the formatted time determines *)

Lemma decode_strftime (dt : datetime) (flag : Z) :
  datetime_ok dt ->
  decode (time_strftime true "%Y-%m-%d %H:%M:%S" (tuple_of dt flag))
  = Some (get_local_timestamp dt).
Proof.
  intros Hok. unfold decode. rewrite (strftime_components dt flag Hok).
  reflexivity.
Qed.

(** The rendering of a wall clock within years 1..9999 decodes to it. *)
Lemma decode_render (l : Z) :
  1 <= l / 86400 + EPOCHORDINAL <= MAXORDINAL ->
  decode (render l) = Some l.
Proof.
  intros Hr. unfold render.
  rewrite (decode_strftime _ _ (wall_clock_ok l 0 None 0 Hr)).
  rewrite get_local_timestamp_wall_clock. reflexivity.
Qed.

Lemma render_injective (l1 l2 : Z) :
  1 <= l1 / 86400 + EPOCHORDINAL <= MAXORDINAL ->
  1 <= l2 / 86400 + EPOCHORDINAL <= MAXORDINAL ->
  render l1 = render l2 -> l1 = l2.
Proof.
  intros H1 H2 E. pose proof (decode_render l1 H1) as D1.
  rewrite E, (decode_render l2 H2) in D1. congruence.
Qed.

Lemma String_compare_refl (s : string) : String.compare s s = Eq.
Proof.
  pose proof (String.compare_antisym s s) as Ha.
  destruct (String.compare s s); cbn in Ha; congruence.
Qed.

Lemma compare_render_fields (a b : Z) :
  1 <= a / 86400 + EPOCHORDINAL <= MAXORDINAL ->
  1 <= b / 86400 + EPOCHORDINAL <= MAXORDINAL ->
  String.compare (render a) (render b)
  = datetime_compare (wall_clock a 0 None 0) (wall_clock b 0 None 0).
Proof.
  intros Ha Hb. unfold render.
  apply compare_strftime; apply wall_clock_ok; assumption.
Qed.

Lemma compare_render_lt (a b : Z) :
  1 <= a / 86400 + EPOCHORDINAL <= MAXORDINAL ->
  1 <= b / 86400 + EPOCHORDINAL <= MAXORDINAL ->
  a < b -> String.compare (render a) (render b) = Lt.
Proof.
  intros Ha Hb Hab.
  pose proof (compare_render_fields a b Ha Hb) as Hf.
  pose proof (wall_clock_compare a b ltac:(lia)) as Hw.
  pose proof (String.compare_eq_iff (render a) (render b)) as He.
  pose proof (render_injective a b Ha Hb) as Hi.
  generalize dependent (String.compare (render a) (render b)).
  intros c Hf He. destruct c; [| reflexivity |].
  - specialize (Hi (He eq_refl)). lia.
  - congruence.
Qed.

(** Renderings compare as the wall clocks they render. *)
Lemma compare_render (l1 l2 : Z) :
  1 <= l1 / 86400 + EPOCHORDINAL <= MAXORDINAL ->
  1 <= l2 / 86400 + EPOCHORDINAL <= MAXORDINAL ->
  String.compare (render l1) (render l2) = (l1 ?= l2).
Proof.
  intros H1 H2.
  destruct (Z.compare_spec l1 l2) as [-> | Hlt | Hgt].
  - apply String_compare_refl.
  - apply compare_render_lt; assumption.
  - rewrite String.compare_antisym, (compare_render_lt l2 l1 H2 H1 Hgt).
    reflexivity.
Qed.

Lemma append_inv_head (p x y : string) :
  (p ++ x)%string = (p ++ y)%string -> x = y.
Proof.
  induction p as [|c p IH]; [trivial|]. cbn [append]. intros [= E].
  exact (IH E).
Qed.

Lemma append_length (a b : string) :
  String.length (a ++ b) = (String.length a + String.length b)%nat.
Proof. induction a as [|c a IH]; cbn; [reflexivity | now rewrite IH]. Qed.

Lemma append_inv_tail (x y s : string) :
  (x ++ s)%string = (y ++ s)%string -> x = y.
Proof.
  revert y. induction x as [|c x IH]; intros [|c' y] E.
  - reflexivity.
  - apply (f_equal String.length) in E. cbn in E. rewrite append_length in E.
    lia.
  - apply (f_equal String.length) in E. cbn in E. rewrite append_length in E.
    lia.
  - cbn [append] in E. injection E as -> E. f_equal. exact (IH y E).
Qed.

Lemma contains_refl (a : string) : contains a a = true.
Proof.
  pose proof (contains_intro a "" "") as H. cbn [append] in H.
  rewrite append_nil_r in H. exact H.
Qed.



(** ** Further properties of the handler *)

(** X1. The string the handler returns decodes, field by field, to the
    local wall clock of the call: the clock's whole seconds plus the offset
    in force at that instant.  Nothing but the sub-second part is lost. *)
Theorem che_ore_sono_decodes (h : Host) (tz : ZoneInfo) (s : string) :
  ZoneInfo_new h TZ_NAME = Ok tz ->
  che_ore_sono h = Ok s ->
  decode s = Some (clock_seconds h + i32 (utcoff tz (clock_seconds h))).
Proof.
  intros E Hs. apply ZoneInfo_new_Ok in E.
  rewrite (che_ore_sono_of_zone h tz s E Hs).
  apply decode_render, local_seconds_in_range.
Qed.

Lemma che_ore_sono_decodes_witness :
  decode "2024-02-29 23:30:00" = Some (1709245800 + 3600).
Proof.
  apply (che_ore_sono_decodes host_leap_day europe_rome_2024); reflexivity.
Defined.

(** X2. Two returned strings compare, as strings, exactly as the local
    wall clocks of the two calls compare; so they are equal only when the
    two local seconds are, and strictly ordered otherwise.  The two hosts
    may resolve to different zone rules. *)
Theorem che_ore_sono_compare (h1 h2 : Host) (tz1 tz2 : ZoneInfo) (s1 s2 : string) :
  ZoneInfo_new h1 TZ_NAME = Ok tz1 -> ZoneInfo_new h2 TZ_NAME = Ok tz2 ->
  che_ore_sono h1 = Ok s1 -> che_ore_sono h2 = Ok s2 ->
  String.compare s1 s2
  = (clock_seconds h1 + i32 (utcoff tz1 (clock_seconds h1))
     ?= clock_seconds h2 + i32 (utcoff tz2 (clock_seconds h2))).
Proof.
  intros E1 E2 R1 R2. apply ZoneInfo_new_Ok in E1, E2.
  rewrite (che_ore_sono_of_zone h1 tz1 s1 E1 R1).
  rewrite (che_ore_sono_of_zone h2 tz2 s2 E2 R2).
  apply compare_render; apply local_seconds_in_range.
Qed.

Lemma che_ore_sono_compare_witness :
  String.compare "2024-10-27 02:59:59" "2024-10-27 02:00:00"
  = (1729990799 + 7200 ?= 1729990800 + 3600).
Proof.
  apply (che_ore_sono_compare host_autumn_before host_autumn_at
           europe_rome_2024 europe_rome_2024); reflexivity.
Defined.

(** X3. The output does not identify the instant: when between two calls
    the offset has dropped by exactly the time elapsed (the repeated hour at
    the end of daylight saving time), the strings that the two calls return
    are the same. *)
Theorem che_ore_sono_repeated_hour (h1 h2 : Host) (tz : ZoneInfo) (d : Z)
    (s1 s2 : string) :
  tzdb h1 TZ_NAME = Found tz -> tzdb h2 TZ_NAME = Found tz ->
  0 < d ->
  clock_seconds h2 = clock_seconds h1 + d ->
  i32 (utcoff tz (clock_seconds h2)) = i32 (utcoff tz (clock_seconds h1)) - d ->
  che_ore_sono h1 = Ok s1 -> che_ore_sono h2 = Ok s2 ->
  s1 = s2.
Proof.
  intros E1 E2 Hd Hc Hoff R1 R2.
  rewrite (che_ore_sono_of_zone h1 tz s1 E1 R1).
  rewrite (che_ore_sono_of_zone h2 tz s2 E2 R2).
  unfold local_seconds. rewrite Hoff, Hc. f_equal. lia.
Qed.

Lemma che_ore_sono_repeated_hour_witness :
  clock_seconds host_autumn_0130 = clock_seconds host_autumn_0030 + 3600
  /\ exists s1 s2,
       che_ore_sono host_autumn_0030 = Ok s1
       /\ che_ore_sono host_autumn_0130 = Ok s2
       /\ s1 = "2024-10-27 02:30:00" /\ s1 = s2.
Proof.
  split; [reflexivity|].
  exists "2024-10-27 02:30:00", "2024-10-27 02:30:00".
  split; [reflexivity|]. split; [reflexivity|]. split; [reflexivity|].
  apply (che_ore_sono_repeated_hour host_autumn_0030 host_autumn_0130
           europe_rome_2024 3600); reflexivity.
Defined.



(** X5. [ZoneInfoNotFoundError] never leaves [get_rome_tz] nor the
    handler, whatever the host; and [get_rome_tz] returns a zone exactly
    when the constructor returned it, the same zone. *)
Theorem get_rome_tz_hides_not_found (h : Host) :
  (forall text, get_rome_tz h <> Raise (ZoneInfoNotFoundError text))
  /\ (forall text, che_ore_sono h <> Raise (ZoneInfoNotFoundError text))
  /\ (forall tz, get_rome_tz h = Ok tz <-> ZoneInfo_new h TZ_NAME = Ok tz).
Proof.
  split; [|split].
  - intros text. unfold get_rome_tz, ZoneInfo_new.
    destruct (tzdb h TZ_NAME); discriminate.
  - intros text He.
    destruct (che_ore_sono_error_cases h _ He)
      as [(t & _ & Heq) | [(E & _) | (tz & _ & _ & Heq)]].
    + discriminate.
    + unfold ZoneInfo_new in E.
      destruct (tzdb h TZ_NAME) as [tz | t | t | t | t | cls t] eqn:Edb;
        try discriminate.
      rewrite (che_ore_sono_raise h _ (get_rome_tz_not_found h t Edb)) in He.
      discriminate.
    + discriminate.
  - intros tz. unfold get_rome_tz.
    destruct (ZoneInfo_new h TZ_NAME) as [tz' | e]; [tauto|].
    destruct e; split; discriminate.
Qed.

(** X6. The detail of the HTTP error carries [str(exc)] verbatim between a
    fixed head and a fixed tail, so the text of the original exception can
    be read back from it: different texts give different details. *)
Theorem tz_error_detail_embeds (a b : string) :
  contains a (tz_error_detail a) = true
  /\ (tz_error_detail a = tz_error_detail b -> a = b).
Proof.
  split.
  - unfold tz_error_detail. do 3 apply contains_app_r.
    apply contains_app_l, contains_refl.
  - unfold tz_error_detail. intros E.
    do 3 apply append_inv_head in E. exact (append_inv_tail _ _ _ E).
Qed.

Lemma tz_error_detail_embeds_witness :
  tz_error_detail "a" <> tz_error_detail "b".
Proof.
  intros E.
  pose proof (proj2 (tz_error_detail_embeds "a" "b") E) as H. discriminate.
Defined.

(** X7. Local time is UTC time shifted by the offset: the string that a
    host whose zone has offset [o] at the instant of the call returns is
    the string that a host with a zero-offset zone returns [o] seconds
    later. *)
Theorem che_ore_sono_utc_shift (h hu : Host) (tz utc : ZoneInfo) (s su : string) :
  tzdb h TZ_NAME = Found tz -> tzdb hu TZ_NAME = Found utc ->
  (forall t, i32 (utcoff utc t) = 0) ->
  clock_seconds hu = clock_seconds h + i32 (utcoff tz (clock_seconds h)) ->
  che_ore_sono h = Ok s -> che_ore_sono hu = Ok su ->
  s = su.
Proof.
  intros E Eu H0 Hc R Ru.
  rewrite (che_ore_sono_of_zone h tz s E R).
  rewrite (che_ore_sono_of_zone hu utc su Eu Ru).
  unfold local_seconds. rewrite H0, Hc. f_equal. lia.
Qed.

Lemma che_ore_sono_utc_shift_witness :
  exists s su,
    che_ore_sono host_2024_03_15 = Ok s
    /\ che_ore_sono host_utc_plus_1h = Ok su
    /\ s = "2024-03-15 14:05:09" /\ s = su.
Proof.
  exists "2024-03-15 14:05:09", "2024-03-15 14:05:09".
  split; [reflexivity|]. split; [reflexivity|]. split; [reflexivity|].
  apply (che_ore_sono_utc_shift host_2024_03_15 host_utc_plus_1h
           europe_rome_2024 utc_zone); reflexivity.
Defined.

Lemma get_rome_tz_hides_not_found_witness :
  get_rome_tz host_2024_03_15 = Ok europe_rome_2024.
Proof.
  apply (proj2 (proj2 (get_rome_tz_hides_not_found host_2024_03_15))
           europe_rome_2024).
  reflexivity.
Defined.
